(** * YieldMax Funds Dashboard (src/yieldmax_app.py)

    A shallow embedding of the Streamlit script: the pandas tables it
    reshapes, the session cache it keeps between reruns, and one rerun of
    the script as a computation over an explicit world (session state,
    object heap, rendered page). *)

From Stdlib Require Import ZArith List Bool Lia.
From Stdlib Require Import Floats.SpecFloat.
From stdpp Require Import base option list strings.

Import ListNotations.
Local Open Scope string_scope.
Local Open Scope list_scope.
Local Open Scope Z_scope.

(** ** Values held by the tables *)

(** A [float64] cell is an IEEE-754 value; [S754_nan] is pandas' missing
    value [NaN]. *)
Abbreviation float := spec_float.

Definition NaN : float := S754_nan.
Definition f0 : float := S754_zero false.
(** [1.0], [0.5] and [0.25] in canonical binary64 form. *)
Definition f1 : float := S754_finite false 4503599627370496 (-52).
Definition f0_5 : float := S754_finite false 4503599627370496 (-53).
Definition f0_25 : float := S754_finite false 4503599627370496 (-54).

(** [x == 0], [x == 1], [x > 0] and [isna] on one cell. *)
Definition eq0 (x : float) : bool := SFeqb x f0.
Definition eq1 (x : float) : bool := SFeqb x f1.
Definition gt0 (x : float) : bool := SFltb f0 x.
Definition le0 (x : float) : bool := SFleb x f0.
Definition isna (x : float) : bool :=
  match x with S754_nan => true | _ => false end.

(** [Series.fillna(0)] on one cell. *)
Definition fillna0 (x : float) : float :=
  match x with S754_nan => f0 | _ => x end.

(** A [pd.Timestamp] / [datetime]: the wall-clock reading in nanoseconds
    since 1970-01-01T00:00 and the attached time zone, [None] when the
    value is timezone-naive. *)
Record Timestamp := mkTimestamp { wall : Z; tz : option string }.

#[global] Instance Timestamp_eq_dec : EqDecision Timestamp.
Proof. solve_decision. Defined.

(** [.dt.tz_localize(None)] on one element: the zone is dropped and the
    local wall-clock reading is kept. *)
Definition tz_localize_None (t : Timestamp) : Timestamp :=
  {| wall := wall t; tz := None |}.

Definition naive (w : Z) : Timestamp := {| wall := w; tz := None |}.

Definition ns_per_day : Z := 86400000000000.

(** [datetime(2000, 1, 1)]. *)
Definition datetime_2000_1_1 : Timestamp := naive (10957 * ns_per_day).

(** [datetime.date()] as a day number, and [pd.to_datetime] of such a
    [date]: midnight of that day. *)
Definition date (t : Timestamp) : Z := wall t / ns_per_day.
Definition to_datetime_date (d : Z) : Timestamp := naive (d * ns_per_day).

Definition ts_leb (a b : Timestamp) : bool := wall a <=? wall b.

(** ** Exceptions and results *)

Inductive Exception :=
  | ValueError_no_objects_to_concatenate
  | ValueError_mixed_timezones
  | ValueError_duplicate_entries
  | StreamlitAPIException
  | ValueError_NaT
  | AttributeError
  | dangling_reference.

Inductive Result (A : Type) :=
  | Ok (a : A)
  | Raise (e : Exception).
Arguments Ok {A} a.
Arguments Raise {A} e.

#[global] Instance Result_ret : MRet Result := fun _ a => Ok a.
#[global] Instance Result_bind : MBind Result := fun _ _ f m =>
  match m with Ok a => f a | Raise e => Raise e end.

(** ** Tables *)

(** What [yf.Ticker(t).history(period="max")] returns, restricted to the
    columns the script reads: a [DatetimeIndex] (one time zone for the whole
    index) and, per row, [Close] and [Dividends]. *)
Record HistRow := mkHistRow { h_wall : Z; h_Close : float; h_Dividends : float }.
Record HistFrame := mkHistFrame { index_tz : option string; hist_rows : list HistRow }.

Definition hist_index (h : HistFrame) : list Timestamp :=
  map (fun r => {| wall := h_wall r; tz := index_tz h |}) (hist_rows h).

(** A per-ticker dividend table: the columns [Date] and [Dividends] row by
    row, and the column [Ticker] once line 90 has created it. *)
Record DivRow := mkDivRow { r_Date : Timestamp; r_Dividends : float }.
Record DivFrame := mkDivFrame { df_rows : list DivRow; df_Ticker : option (list string) }.

(** One row of a concatenated (long-form) table.  [Ticker] is [None] where
    the source frame had no such column. *)
Record LongRow := mkLongRow { Ticker : option string; Date : Timestamp; Dividends : float }.

Definition frame_rows (f : DivFrame) : list LongRow :=
  imap (fun i r =>
          {| Ticker := df_Ticker f ≫= (fun col => col !! i);
             Date := r_Date r; Dividends := r_Dividends r |}) (df_rows f).

(** [pd.concat(frames)]: rows in order; an empty list of frames raises. *)
Definition concat (frames : list DivFrame) : Result (list LongRow) :=
  match frames with
  | [] => Raise ValueError_no_objects_to_concatenate
  | _ => Ok (flat_map frame_rows frames)
  end.

(** [df["Ticker"] = ticker]: the scalar is broadcast over the rows. *)
Definition set_Ticker (ticker : string) (f : DivFrame) : DivFrame :=
  {| df_rows := df_rows f;
     df_Ticker := Some (repeat ticker (length (df_rows f))) |}.

(** [combined["Date"] = pd.to_datetime(combined["Date"]).dt.tz_localize(None)]:
    a column whose elements do not share one time zone is not datetime-like
    and the line raises; otherwise every element loses its zone. *)
Definition uniform_tz (col : list Timestamp) : bool :=
  match col with
  | [] => true
  | t :: rest => forallb (fun u => bool_decide (tz u = tz t)) rest
  end.

Definition localize_Date (rows : list LongRow) : Result (list LongRow) :=
  if uniform_tz (map Date rows)
  then Ok (map (fun r => {| Ticker := Ticker r;
                            Date := tz_localize_None (Date r);
                            Dividends := Dividends r |}) rows)
  else Raise ValueError_mixed_timezones.

(** [Series.min()] and [Series.max()] of a datetime column: [None] is
    [NaT], the result on an empty column. *)
Definition ts_min (a b : Timestamp) : Timestamp := if ts_leb a b then a else b.
Definition ts_max (a b : Timestamp) : Timestamp := if ts_leb a b then b else a.

Definition Series_min (col : list Timestamp) : option Timestamp :=
  match col with
  | [] => None
  | t :: rest => Some (fold_left ts_min rest t)
  end.

Definition Series_max (col : list Timestamp) : option Timestamp :=
  match col with
  | [] => None
  | t :: rest => Some (fold_left ts_max rest t)
  end.

(** Line 96: rows with [start <= Date <= end], both ends inclusive. *)
Definition in_range (start_date end_date : Z) (r : LongRow) : bool :=
  ts_leb (to_datetime_date start_date) (Date r)
  && ts_leb (Date r) (to_datetime_date end_date).

Definition filter_range (start_date end_date : Z) (rows : list LongRow)
  : list LongRow :=
  List.filter (in_range start_date end_date) rows.

(** ** The pivoted dividend table *)

(** A wide table as pandas holds it: the row labels and, per column label,
    the column's values aligned with the row labels. *)
Record Pivoted := mkPivoted {
  index : list (option string);
  columns : list (Timestamp * list float)
}.

Definition column_labels (p : Pivoted) : list Timestamp := map fst (columns p).

(** Sorted, duplicate-free labels, as [pivot] produces them. *)
Section SortedLabels.
Context {A : Type} `{EqDecision A} (leb : A -> A -> bool).

Fixpoint insert_label (x : A) (l : list A) : list A :=
  match l with
  | [] => [x]
  | y :: rest =>
      if decide (x = y) then l
      else if leb x y then x :: l
      else y :: insert_label x rest
  end.

Definition sorted_labels (l : list A) : list A :=
  fold_right insert_label [] l.
End SortedLabels.

(** Row labels order: strings lexicographically, a missing label last. *)
Definition ticker_leb (a b : option string) : bool :=
  match a, b with
  | Some x, Some y => String.leb x y
  | Some _, None => true
  | None, Some _ => false
  | None, None => true
  end.

(** The cell of row label [t] and column label [d]: the [Dividends] of the
    matching long-form row, [NaN] when there is none. *)
Definition cell (rows : list LongRow) (t : option string) (d : Timestamp) : float :=
  match List.find (fun r => bool_decide (Ticker r = t /\ Date r = d)) rows with
  | Some r => Dividends r
  | None => NaN
  end.

(** [rows.pivot(index="Ticker", columns="Date", values="Dividends")]: raises
    when an (index, column) pair occurs twice. *)
Definition pivot (rows : list LongRow) : Result Pivoted :=
  if decide (NoDup (map (fun r => (Ticker r, Date r)) rows)) then
    let idx := sorted_labels ticker_leb (map Ticker rows) in
    let cols := sorted_labels ts_leb (map Date rows) in
    Ok {| index := idx;
          columns := map (fun d => (d, map (fun t => cell rows t d) idx)) cols |}
  else Raise ValueError_duplicate_entries.

(** Line 99: the three column masks and the selection [loc[:, ~mask]]. *)
Definition all_eq0 (vs : list float) : bool := forallb eq0 vs.
Definition all_eq1 (vs : list float) : bool := forallb eq1 vs.
Definition all_isna (vs : list float) : bool := forallb isna vs.

Definition dropped (vs : list float) : bool :=
  all_eq0 vs || all_eq1 vs || all_isna vs.

Definition drop_columns (p : Pivoted) : Pivoted :=
  {| index := index p;
     columns := List.filter (fun c => negb (dropped (snd c))) (columns p) |}.

(** ** Figures *)

Inductive Trace :=
  | Scatter (x : list Timestamp) (y : list float) (mode name : string)
  | Bar (x : list Timestamp) (y : list float) (name : option string).

Record Figure := mkFigure {
  traces : list Trace;
  layout_title : string;
  xaxis_title : string;
  yaxis_title : string;
  legend_title : option string;
  barmode : option string;
  height : Z;
  margin : Z * Z
}.

(** [pivoted.loc[ticker]]: the row of the first position labelled [ticker],
    as a series over the column labels. *)
Definition get_loc (p : Pivoted) (ticker : option string) : option nat :=
  fst <$> list_find (fun t => t = ticker) (index p).

Definition loc (p : Pivoted) (ticker : option string) : list (Timestamp * float) :=
  match get_loc p ticker with
  | Some i => map (fun c => (fst c, default NaN (snd c !! i))) (columns p)
  | None => []
  end.

(** Lines 105-113: one bar trace per row label, over the entries [> 0]. *)
Definition bar_trace (p : Pivoted) (ticker : option string) : Trace :=
  let non_zero_data := List.filter (fun e => gt0 (snd e)) (loc p ticker) in
  Bar (map fst non_zero_data) (map snd non_zero_data) ticker.

Definition fig_dividends (p : Pivoted) : Figure :=
  {| traces := map (bar_trace p) (index p);
     layout_title := "Dividends Over Time";
     xaxis_title := "Date";
     yaxis_title := "Dividends ($)";
     legend_title := None;
     barmode := Some "group";
     height := 500;
     margin := (50, 50) |}.

(** The values of the bars of a figure. *)
Definition bar_values (t : Trace) : list float :=
  match t with Bar _ y _ => y | Scatter _ _ _ _ => [] end.

(** Lines 72-82: one line trace per cached ticker, over the whole history. *)
Definition price_trace (entry : string * HistFrame) : Trace :=
  Scatter (hist_index (snd entry)) (map h_Close (hist_rows (snd entry)))
          "lines" (fst entry).

Definition fig (fund_data : list (string * HistFrame)) : Figure :=
  {| traces := map price_trace fund_data;
     layout_title := "YieldMax Fund Values Since Inception";
     xaxis_title := "Date";
     yaxis_title := "Value ($)";
     legend_title := Some "Funds";
     barmode := None;
     height := 600;
     margin := (50, 100) |}.

(** ** The session cache, the object heap and the page *)

(** A Python [dict] with string keys, in insertion order. *)
Definition dict (V : Type) : Type := list (string * V).

Fixpoint dict_set {V : Type} (k : string) (v : V) (d : dict V) : dict V :=
  match d with
  | [] => [(k, v)]
  | (k', v') :: rest =>
      if decide (k = k') then (k, v) :: rest else (k', v') :: dict_set k v rest
  end.

(** Truth value of a [dict] in an [if]. *)
Definition truthy {V : Type} (d : dict V) : bool :=
  match d with [] => false | _ => true end.

Definition keys {V : Type} (d : dict V) : list string := map fst d.
Definition values {V : Type} (d : dict V) : list V := map snd d.

Inductive Element :=
  | st_title (s : string)
  | st_write (s : string)
  | st_subheader (s : string)
  | st_sidebar_title (s : string)
  | st_sidebar_write (s : string)
  | st_plotly_chart (f : Figure)
  | st_dataframe (p : Pivoted).

(** What a rerun of the script sees and changes: the two entries of
    [st.session_state] ([None] while the key is absent), the heap of
    dividend [DataFrame] objects the cache refers to (a reference is a
    position in the heap), and the page rendered so far.  The price tables
    are never written to after the fetch, so the cache holds them by value. *)
Record World := mkWorld {
  fund_data : option (dict HistFrame);
  fund_dividends : option (dict nat);
  heap : list DivFrame;
  page : list Element
}.

Definition session_start : World :=
  {| fund_data := None; fund_dividends := None; heap := []; page := [] |}.

(** The script monad: state passing over the world, with exceptions; the
    world reached when an exception is raised is kept. *)
Definition M (A : Type) : Type := World -> Result A * World.

#[global] Instance M_ret : MRet M := fun _ a w => (Ok a, w).
#[global] Instance M_bind : MBind M := fun _ _ f m w =>
  match m w with
  | (Ok a, w') => f a w'
  | (Raise e, w') => (Raise e, w')
  end.

Definition lift {A : Type} (r : Result A) : M A := fun w => (r, w).

Definition render (e : Element) : M unit := fun w =>
  (Ok (), {| fund_data := fund_data w; fund_dividends := fund_dividends w;
             heap := heap w; page := page w ++ [e] |}).

Definition clear_page : M unit := fun w =>
  (Ok (), {| fund_data := fund_data w; fund_dividends := fund_dividends w;
             heap := heap w; page := [] |}).

(** A new [DataFrame] object. *)
Definition alloc (f : DivFrame) : M nat := fun w =>
  (Ok (length (heap w)),
   {| fund_data := fund_data w; fund_dividends := fund_dividends w;
      heap := heap w ++ [f]; page := page w |}).

(** Reading an object through a reference.  Python has no dangling
    references: [dangling_reference] is there for worlds the script never
    builds. *)
Definition deref (l : nat) : M DivFrame := fun w =>
  match heap w !! l with
  | Some f => (Ok f, w)
  | None => (Raise dangling_reference, w)
  end.

(** [dividends["Ticker"] = ticker] on the object [dividends] refers to: the
    object itself is changed, for every holder of the reference. *)
Definition setitem_Ticker (dividends : nat) (ticker : string) : M unit := fun w =>
  match heap w !! dividends with
  | Some f =>
      (Ok (), {| fund_data := fund_data w; fund_dividends := fund_dividends w;
                 heap := <[dividends := set_Ticker ticker f]> (heap w);
                 page := page w |})
  | None => (Raise dangling_reference, w)
  end.

Definition get_fund_data : M (dict HistFrame) := fun w =>
  match fund_data w with
  | Some d => (Ok d, w)
  | None => (Raise AttributeError, w)
  end.

Definition get_fund_dividends : M (dict nat) := fun w =>
  match fund_dividends w with
  | Some d => (Ok d, w)
  | None => (Raise AttributeError, w)
  end.

(** Lines 41-44. *)
Definition init_session_state : M unit := fun w =>
  (Ok (), {| fund_data := Some (default [] (fund_data w));
             fund_dividends := Some (default [] (fund_dividends w));
             heap := heap w; page := page w |}).

(** Line 51: both entries are replaced. *)
Definition set_cache (r : dict HistFrame * dict nat) : M unit := fun w =>
  (Ok (), {| fund_data := Some (fst r); fund_dividends := Some (snd r);
             heap := heap w; page := page w |}).

(** ** The script *)

Definition yieldmax_tickers : list string :=
  ["TSLY"; "OARK"; "APLY"; "NVDY"; "AMZY"; "FBY"; "GOOY"; "CONY"; "NFLY"; "DISO";
   "MSFO"; "XOMO"; "JPMO"; "AMDY"; "PYPY"; "SQY"; "MRNY"; "AIYY"; "YMAX"; "YMAG";
   "MSTY"; "ULTY"; "YBIT"; "CRSH"; "GDXY"; "SNOY"; "ABNY"; "FIAT"; "DIPS"; "BABO";
   "YQQQ"; "TSMY"; "SMCY"; "PLTY"; "BIGY"; "SOXY"; "MARO"].

Definition default_selection : list string := ["YMAX"; "YMAG"].

(** What one rerun receives from outside: the widgets' values, the clock
    and the market-data service.  [start_choice] and [end_choice] are the
    days the two date widgets hold ([None] while untouched);
    [date_input_resets] tells what the installed Streamlit does with a held
    day outside the bounds: newer releases reset it to the default, older
    ones hand it back as it is.  [history n t] is the answer of the [n]-th
    call [yf.Ticker(t).history(period="max")] of the rerun; the reruns
    covered are those in which the service answers every call with a frame
    that has a [Dividends] column (a call that raises ends the rerun inside
    line 51, before anything is assigned). *)
Record Interaction := mkInteraction {
  selected_tickers : list string;
  button : bool;
  start_choice : option Z;
  end_choice : option Z;
  date_input_resets : bool;
  today : Z;
  history : nat -> string -> HistFrame
}.

(** Lines 32-35: the dividend table of one ticker. *)
Definition normalize_dividends (raw : HistFrame) : DivFrame :=
  {| df_rows :=
       map (fun r =>
              {| r_Date := tz_localize_None {| wall := h_wall r; tz := index_tz raw |};
                 r_Dividends := fillna0 (h_Dividends r) |}) (hist_rows raw);
     df_Ticker := None |}.

(** Lines 26-38. *)
Fixpoint fetch_loop (history : nat -> string -> HistFrame) (n : nat)
    (tickers : list string) (data : dict HistFrame) (dividends : dict nat)
  : M (dict HistFrame * dict nat) :=
  match tickers with
  | [] => mret (data, dividends)
  | ticker :: rest =>
      let hist := history n ticker in
      divs ← alloc (normalize_dividends (history (S n) ticker));
      fetch_loop history (S (S n)) rest
                 (dict_set ticker hist data) (dict_set ticker divs dividends)
  end.

Definition fetch_yieldmax_data (history : nat -> string -> HistFrame)
    (tickers : list string) : M (dict HistFrame * dict nat) :=
  fetch_loop history 0 tickers [] [].

(** Lines 47-51. *)
Definition fetch_trigger (i : Interaction) : M unit :=
  if button i then
    render (st_write "Fetching data... This may take a moment.");;
    r ← fetch_yieldmax_data (history i) (selected_tickers i);
    set_cache r
  else mret ().

Fixpoint deref_all (refs : list nat) : M (list DivFrame) :=
  match refs with
  | [] => mret []
  | l :: rest => f ← deref l; fs ← deref_all rest; mret (f :: fs)
  end.

(** Lines 54-62. *)
Definition resolve_date_range (today : Z)
  : M (option Timestamp * option Timestamp) :=
  cache ← get_fund_dividends;
  if truthy cache then
    all_dividends ← deref_all (values cache);
    combined_dividends ← lift (concat all_dividends);
    combined_dividends ← lift (localize_Date combined_dividends);
    mret (Series_min (map Date combined_dividends),
          Series_max (map Date combined_dividends))
  else mret (Some datetime_2000_1_1, Some (naive today)).

(** [st.sidebar.date_input(label, value, min_value=.., max_value=..)]: the
    three arguments are reduced to calendar days; with [NaT] among them the
    call ends in a [ValueError]; a default outside the bounds raises
    [StreamlitAPIException].  Otherwise the widget never raises: untouched
    it yields the default, a held day within the bounds is handed back, and
    a held day outside the bounds is handed back as it is or reset to the
    default, depending on the release ([resets]). *)
Definition date_input (value min_value max_value : option Timestamp)
    (resets : bool) (choice : option Z) : Result Z :=
  match value, min_value, max_value with
  | Some v, Some lo, Some hi =>
      if (date lo <=? date v) && (date v <=? date hi) then
        match choice with
        | None => Ok (date v)
        | Some c =>
            if (date lo <=? c) && (c <=? date hi) then Ok c
            else if resets then Ok (date v)
            else Ok c
        end
      else Raise StreamlitAPIException
  | _, _, _ => Raise ValueError_NaT
  end.

(** Lines 65-67. *)
Definition date_filter (i : Interaction)
    (bounds : option Timestamp * option Timestamp) : M (Z * Z) :=
  let '(min_date, max_date) := bounds in
  render (st_sidebar_title "Filter Date Range");;
  start_date ← lift (date_input min_date min_date max_date
                                 (date_input_resets i) (start_choice i));
  end_date ← lift (date_input max_date min_date max_date
                               (date_input_resets i) (end_choice i));
  mret (start_date, end_date).

(** Lines 70-83. *)
Definition price_chart : M unit :=
  data ← get_fund_data;
  if truthy data then
    render (st_subheader "Fund Values Since Inception");;
    render (st_plotly_chart (fig data))
  else mret ().

(** Lines 88-91: the loop variable [dividends] is the cached object. *)
Fixpoint tag_all (items : list (string * nat)) : M (list nat) :=
  match items with
  | [] => mret []
  | (ticker, dividends) :: rest =>
      setitem_Ticker dividends ticker;;
      all_dividends ← tag_all rest;
      mret (dividends :: all_dividends)
  end.

(** Lines 94-99 on the frames read through [all_dividends]. *)
Definition pivoted_dividends (frames : list DivFrame) (start_date end_date : Z)
  : Result Pivoted :=
  combined_dividends ← concat frames;
  combined_dividends ← localize_Date combined_dividends;
  let filtered_dividends := filter_range start_date end_date combined_dividends in
  pivoted ← pivot filtered_dividends;
  mret (drop_columns pivoted).

(** Lines 87-100: [None] when [all_dividends] is empty (line 93). *)
Definition dividend_table (cache : dict nat) (start_date end_date : Z)
  : M (option Pivoted) :=
  render (st_subheader "Dividends Paid for All Selected Funds");;
  all_dividends ← tag_all cache;
  match all_dividends with
  | [] => mret None
  | _ =>
      frames ← deref_all all_dividends;
      pivoted ← lift (pivoted_dividends frames start_date end_date);
      render (st_dataframe pivoted);;
      mret (Some pivoted)
  end.

(** Lines 103-122. *)
Definition dividend_chart (pivoted : Pivoted) : M unit :=
  render (st_subheader "Dividends Visualization");;
  render (st_plotly_chart (fig_dividends pivoted)).

(** Lines 86-126. *)
Definition dividends_section (start_date end_date : Z) : M unit :=
  cache ← get_fund_dividends;
  if truthy cache then
    table ← dividend_table cache start_date end_date;
    match table with
    | Some pivoted => dividend_chart pivoted
    | None => render (st_write "No dividend data available for the selected funds.")
    end
  else render (st_write "Click the button above to fetch and display YieldMax fund data.").

(** Lines 9-51: the page starts empty on every rerun. *)
Definition script_head (i : Interaction) : M unit :=
  clear_page;;
  render (st_title "YieldMax Funds Dashboard");;
  render (st_write "This application fetches data for all YieldMax funds from inception, plots their value since inception, and displays a table of all dividends paid.");;
  render (st_sidebar_title "Select YieldMax Funds");;
  render (st_sidebar_write "Choose which YieldMax funds to display in the analysis.");;
  init_session_state;;
  fetch_trigger i.

(** One rerun of the whole script; it yields the selected date range. *)
Definition script (i : Interaction) : M (Z * Z) :=
  script_head i;;
  bounds ← resolve_date_range (today i);
  range ← date_filter i bounds;
  price_chart;;
  dividends_section (fst range) (snd range);;
  mret range.

(** The worlds a session passes through. *)
Inductive reachable : World -> Prop :=
  | reachable_start : reachable session_start
  | reachable_rerun (w : World) (i : Interaction) :
      reachable w -> reachable (snd (script i w)).

(** ** Vocabulary of the properties *)

(** Every visible ticker's cell on date [d] satisfies the test [P]. *)
Definition every_cell (P : float -> bool) (rows : list LongRow) (p : Pivoted)
    (d : Timestamp) : Prop :=
  forall t, In t (index p) -> P (cell rows t d) = true.

(** The union of the dividend dates of the cached tables, as lines 57 and
    95 see it. *)
Definition all_dates (frames : list DivFrame) : list Timestamp :=
  flat_map (fun f => map r_Date (df_rows f)) frames.

Definition cached_dates (frames : list DivFrame) : list Timestamp :=
  map tz_localize_None (all_dates frames).

(** The references of a cache point to these tables. *)
Definition refers_to (w : World) (cache : dict nat) (frames : list DivFrame) : Prop :=
  Forall2 (fun l f => heap w !! l = Some f) (values cache) frames.

(** The session cache of one world is that of another: the same two maps
    and the same objects behind them. *)
Definition same_cache (w' w : World) : Prop :=
  fund_data w' = fund_data w /\
  fund_dividends w' = fund_dividends w /\
  heap w' = heap w.

(** The price charts among the elements of a page. *)
Definition is_price_chart (e : Element) : bool :=
  match e with
  | st_plotly_chart f =>
      bool_decide (layout_title f = "YieldMax Fund Values Since Inception")
  | _ => false
  end.

Definition price_charts (pg : list Element) : list Element :=
  List.filter is_price_chart pg.

(** The cached tables once line 90 has written each one's key into its
    [Ticker] column. *)
Definition tagged (cache : dict nat) (frames : list DivFrame) : list DivFrame :=
  map (fun e => set_Ticker (fst e) (snd e)) (combine (keys cache) frames).

(** What every world of a session satisfies: the keys of the dividend cache
    are pairwise distinct (it is a [dict]), so are the objects it refers to
    (the fetch creates one per key), each reference is live, and every
    cached date is timezone-naive. *)
Definition well_formed_cache (w : World) : Prop :=
  forall cache,
    fund_dividends w = Some cache ->
    List.NoDup (keys cache) /\
    List.NoDup (values cache) /\
    forall l, In l (values cache) ->
              exists f, heap w !! l = Some f /\
                        Forall (fun r => tz (r_Date r) = None) (df_rows f).

(** Within each cached table the dates are pairwise distinct. *)
Definition distinct_dates (w : World) (cache : dict nat) : Prop :=
  forall l f, In l (values cache) -> heap w !! l = Some f ->
              List.NoDup (map r_Date (df_rows f)).

(** The notice of line 124. *)
Definition no_data_notice : Element :=
  st_write "No dividend data available for the selected funds.".

(** A table without rows and columns. *)
Definition empty_table : Pivoted := {| index := []; columns := [] |}.

(** The bars of a trace as (date, value) points. *)
Definition bar_points (t : Trace) : list (Timestamp * float) :=
  match t with Bar x y _ => combine x y | Scatter _ _ _ _ => [] end.

Definition trace_name (t : Trace) : option string :=
  match t with Bar _ _ name => name | Scatter _ _ _ name => Some name end.

(** ** Concrete sessions *)

(** The scenario of the specification: TSLY pays 0.5 on 2023-01-01 and
    nothing on 2023-02-01, YMAX pays nothing on either day. *)
Definition day_2023_01_01 : Z := 19358.
Definition day_2023_02_01 : Z := 19389.

Definition TSLY_frame : DivFrame :=
  {| df_rows := [ {| r_Date := to_datetime_date day_2023_01_01; r_Dividends := f0_5 |};
                  {| r_Date := to_datetime_date day_2023_02_01; r_Dividends := f0 |} ];
     df_Ticker := Some ["TSLY"; "TSLY"] |}.

Definition YMAX_frame : DivFrame :=
  {| df_rows := [ {| r_Date := to_datetime_date day_2023_01_01; r_Dividends := f0 |};
                  {| r_Date := to_datetime_date day_2023_02_01; r_Dividends := f0 |} ];
     df_Ticker := Some ["YMAX"; "YMAX"] |}.

(** The table the scenario shows over the full range. *)
Definition scenario_table : Pivoted :=
  {| index := [Some "TSLY"; Some "YMAX"];
     columns := [(to_datetime_date day_2023_01_01, [f0_5; f0])] |}.

(** A world caching the two tables of the scenario. *)
Definition scenario_cache : dict nat := [("TSLY", 0%nat); ("YMAX", 1%nat)].

Definition scenario_world : World :=
  {| fund_data := Some [];
     fund_dividends := Some scenario_cache;
     heap := [TSLY_frame; YMAX_frame];
     page := [] |}.

(** A session whose caches exist and are empty (lines 41-44 only). *)
Definition empty_cache_world : World :=
  {| fund_data := Some []; fund_dividends := Some []; heap := []; page := [] |}.

(** The service has no rows for the requested fund. *)
Definition empty_history : HistFrame :=
  {| index_tz := Some "America/New_York"; hist_rows := [] |}.

Definition no_data_interaction : Interaction :=
  {| selected_tickers := ["YMAX"];
     button := true;
     start_choice := None;
     end_choice := None;
     date_input_resets := false;
     today := 20395 * ns_per_day;
     history := fun _ _ => empty_history |}.

(** The service answers with the scenario's two histories. *)
Definition TSLY_history : HistFrame :=
  {| index_tz := Some "America/New_York";
     hist_rows := [ {| h_wall := day_2023_01_01 * ns_per_day; h_Close := f1;
                       h_Dividends := f0_5 |};
                    {| h_wall := day_2023_02_01 * ns_per_day; h_Close := f0_5;
                       h_Dividends := NaN |} ] |}.

Definition YMAX_history : HistFrame :=
  {| index_tz := Some "America/New_York";
     hist_rows := [ {| h_wall := day_2023_01_01 * ns_per_day; h_Close := f1;
                       h_Dividends := f0 |};
                    {| h_wall := day_2023_02_01 * ns_per_day; h_Close := f1;
                       h_Dividends := f0 |} ] |}.

Definition scenario_interaction : Interaction :=
  {| selected_tickers := ["TSLY"; "YMAX"];
     button := true;
     start_choice := None;
     end_choice := None;
     date_input_resets := false;
     today := 20395 * ns_per_day;
     history := fun _ t => if decide (t = "TSLY") then TSLY_history else YMAX_history |}.

(** The world of that rerun, from the start of a session, right after the
    fetch-trigger branch (line 51). *)
Definition fetched_world : World :=
  snd (script_head scenario_interaction session_start).

(** After the scenario's fetch the user picks the last day as start and the
    first day as end. *)
Definition reversed_interaction : Interaction :=
  {| selected_tickers := ["TSLY"; "YMAX"];
     button := false;
     start_choice := Some day_2023_02_01;
     end_choice := Some day_2023_01_01;
     date_input_resets := false;
     today := 20395 * ns_per_day;
     history := fun _ _ => empty_history |}.

(** The same rerun with both widgets on the first day. *)
Definition narrow_interaction : Interaction :=
  {| selected_tickers := ["TSLY"; "YMAX"];
     button := false;
     start_choice := Some day_2023_01_01;
     end_choice := Some day_2023_01_01;
     date_input_resets := false;
     today := 20395 * ns_per_day;
     history := fun _ _ => empty_history |}.

(** The two tables as the fetch of the scenario caches them. *)
Definition TSLY_fetched : DivFrame :=
  {| df_rows := df_rows TSLY_frame; df_Ticker := None |}.
Definition YMAX_fetched : DivFrame :=
  {| df_rows := df_rows YMAX_frame; df_Ticker := None |}.

(** The long-form rows of the scenario, and rows in which both funds pay
    exactly 1 on the same day. *)
Definition scenario_rows : list LongRow :=
  flat_map frame_rows [TSLY_frame; YMAX_frame].

Definition ones_rows : list LongRow :=
  [ {| Ticker := Some "TSLY"; Date := to_datetime_date day_2023_01_01;
       Dividends := f1 |};
    {| Ticker := Some "YMAX"; Date := to_datetime_date day_2023_01_01;
       Dividends := f1 |} ].

(** The service reports the same day twice for the requested fund. *)
Definition duplicated_history : HistFrame :=
  {| index_tz := Some "America/New_York";
     hist_rows := [ {| h_wall := day_2023_01_01 * ns_per_day; h_Close := f1;
                       h_Dividends := f0_5 |};
                    {| h_wall := day_2023_01_01 * ns_per_day; h_Close := f1;
                       h_Dividends := f0_25 |} ] |}.

Definition duplicated_interaction : Interaction :=
  {| selected_tickers := ["YMAX"];
     button := true;
     start_choice := None;
     end_choice := None;
     date_input_resets := false;
     today := 20395 * ns_per_day;
     history := fun _ _ => duplicated_history |}.

(** After the scenario's fetch the start widget holds 2022-12-01, a day
    before the first cached date. *)
Definition out_of_bounds_interaction (resets : bool) : Interaction :=
  {| selected_tickers := ["TSLY"; "YMAX"];
     button := false;
     start_choice := Some 19327;
     end_choice := None;
     date_input_resets := resets;
     today := 20395 * ns_per_day;
     history := fun _ _ => empty_history |}.

(** A rerun without the button after the fetch of the duplicated day. *)
Definition duplicated_rerun : Interaction :=
  {| selected_tickers := ["YMAX"];
     button := false;
     start_choice := None;
     end_choice := None;
     date_input_resets := false;
     today := 20395 * ns_per_day;
     history := fun _ _ => empty_history |}.

(** * Properties *)

(** ** Cells *)

Lemma gt0_not_le0 (x : float) : gt0 x = true -> le0 x = false.
Proof.
  unfold gt0, le0, SFltb, SFleb.
  destruct x as [s|s| |s m e]; simpl; try discriminate; destruct s; simpl;
    intros H; try discriminate; reflexivity.
Qed.

Lemma isna_not_eq0 (x : float) : isna x = true -> eq0 x = false.
Proof. destruct x; simpl; try discriminate; reflexivity. Qed.

Lemma fillna0_not_na (x : float) : isna (fillna0 x) = false.
Proof. destruct x; reflexivity. Qed.

Lemma fillna0_eq0 (x : float) :
  isna x = true \/ eq0 x = true -> eq0 (fillna0 x) = true.
Proof. destruct x; simpl; intros [H|H]; try discriminate; auto. Qed.

(** ** The dividend bar chart *)

Lemma bar_trace_values (p : Pivoted) (ticker : option string) :
  Forall (fun v => gt0 v = true) (bar_values (bar_trace p ticker)).
Proof.
  unfold bar_trace; simpl.
  apply List.Forall_forall. intros v Hv.
  apply List.in_map_iff in Hv as [[d v'] [<- Hin]].
  apply List.filter_In in Hin as [_ Hpos]. exact Hpos.
Qed.

(** C7: every bar of the dividend chart built from a pivoted table has a
    value [> 0]; no bar has a value [<= 0]. *)
Theorem fig_dividends_bars_positive (p : Pivoted) :
  Forall (fun t => Forall (fun v => gt0 v = true /\ le0 v = false) (bar_values t))
         (traces (fig_dividends p)).
Proof.
  unfold fig_dividends; simpl.
  apply List.Forall_forall. intros t Ht.
  apply List.in_map_iff in Ht as [ticker [<- _]].
  eapply List.Forall_impl; [|apply bar_trace_values].
  intros v Hv. split; [exact Hv|]. now apply gt0_not_le0.
Qed.

(** The chart of the scenario's table: one bar, 0.5 for TSLY. *)
Example fig_dividends_scenario :
  map bar_values (traces (fig_dividends scenario_table)) = [[f0_5]; []].
Proof. reflexivity. Qed.

(** ** Labels of a pivoted table *)

Section SortedLabelsFacts.
Context {A : Type} `{EqDecision A} (leb : A -> A -> bool).

Lemma In_insert_label (x z : A) (l : list A) :
  In z (insert_label leb x l) <-> z = x \/ In z l.
Proof.
  induction l as [|y rest IH]; simpl.
  - intuition.
  - destruct (decide (x = y)) as [->|Hne]; simpl; [intuition|].
    destruct (leb x y); simpl; [intuition|].
    rewrite IH. intuition.
Qed.

Lemma In_sorted_labels (z : A) (l : list A) :
  In z (sorted_labels leb l) <-> In z l.
Proof.
  induction l as [|x rest IH]; simpl; [reflexivity|].
  rewrite In_insert_label, IH. intuition.
Qed.
End SortedLabelsFacts.

Lemma pivot_Ok (rows : list LongRow) (p : Pivoted) :
  pivot rows = Ok p ->
  index p = sorted_labels ticker_leb (map Ticker rows) /\
  columns p = map (fun d => (d, map (fun t => cell rows t d) (index p)))
                  (sorted_labels ts_leb (map Date rows)).
Proof.
  unfold pivot. destruct (decide _); [|discriminate].
  intros [= <-]. simpl. split; reflexivity.
Qed.

Lemma pivot_column_labels (rows : list LongRow) (p : Pivoted) (d : Timestamp) :
  pivot rows = Ok p -> In d (column_labels p) <-> In d (map Date rows).
Proof.
  intros [_ Hc]%pivot_Ok. unfold column_labels. rewrite Hc, List.map_map. simpl.
  rewrite List.map_id. apply In_sorted_labels.
Qed.

Lemma pivot_index (rows : list LongRow) (p : Pivoted) (t : option string) :
  pivot rows = Ok p -> In t (index p) <-> In t (map Ticker rows).
Proof. intros [-> _]%pivot_Ok. apply In_sorted_labels. Qed.

(** ** The column-drop rule *)

Lemma forallb_cells (P : float -> bool) (rows : list LongRow) (p : Pivoted)
    (d : Timestamp) :
  forallb P (map (fun t => cell rows t d) (index p)) = true <-> every_cell P rows p d.
Proof.
  unfold every_cell. rewrite List.forallb_forall. split.
  - intros H t Ht. apply H, List.in_map_iff. eauto.
  - intros H v [t [<- Ht]]%List.in_map_iff. auto.
Qed.

Lemma dropped_cells (rows : list LongRow) (p : Pivoted) (d : Timestamp) :
  dropped (map (fun t => cell rows t d) (index p)) = true <->
  every_cell eq0 rows p d \/ every_cell eq1 rows p d \/ every_cell isna rows p d.
Proof.
  unfold dropped, all_eq0, all_eq1, all_isna.
  rewrite !orb_true_iff, !forallb_cells. tauto.
Qed.

Lemma drop_columns_labels (rows : list LongRow) (p : Pivoted) (d : Timestamp) :
  pivot rows = Ok p ->
  In d (column_labels (drop_columns p)) <->
  In d (column_labels p) /\
  ~ (every_cell eq0 rows p d \/ every_cell eq1 rows p d \/ every_cell isna rows p d).
Proof.
  intros Hp. destruct (pivot_Ok _ _ Hp) as [_ Hc].
  rewrite <- dropped_cells. unfold column_labels, drop_columns; simpl.
  rewrite !List.in_map_iff. split.
  - intros [[d' vs] [Hd Hin]]. simpl in Hd; subst d'.
    apply List.filter_In in Hin as [Hin Hkeep]. simpl in Hkeep.
    split; [exists (d, vs); auto|].
    rewrite Hc in Hin. apply List.in_map_iff in Hin as [d' [[= -> <-] _]].
    now destruct (dropped _).
  - intros [[[d' vs] [Hd Hin]] Hkeep]. simpl in Hd; subst d'.
    exists (d, vs). split; [reflexivity|].
    apply List.filter_In. split; [exact Hin|]. simpl.
    rewrite Hc in Hin. apply List.in_map_iff in Hin as [d' [[= -> <-] _]].
    now destruct (dropped _).
Qed.

Lemma pivoted_dividends_Ok (frames : list DivFrame) (start_date end_date : Z)
    (final : Pivoted) :
  pivoted_dividends frames start_date end_date = Ok final ->
  exists combined localized pivoted,
    concat frames = Ok combined /\
    localize_Date combined = Ok localized /\
    pivot (filter_range start_date end_date localized) = Ok pivoted /\
    final = drop_columns pivoted.
Proof.
  unfold pivoted_dividends, mbind, Result_bind, mret, Result_ret.
  destruct (concat frames) as [combined|]; [|discriminate].
  destruct (localize_Date combined) as [localized|] eqn:Hl; [|discriminate].
  destruct (pivot _) as [pivoted|] eqn:Hp; [|discriminate].
  intros [= <-]. exists combined, localized, pivoted. auto.
Qed.

(** C1: the table shown for a cached dividend map and a date range is the
    pivot of the filtered rows without exactly the date columns whose cells
    are all [== 0], or all [== 1], or all missing; a date column with a cell
    that is none of these is kept, whatever the other cells are. *)
Theorem pivoted_dividends_drop_rule (frames : list DivFrame)
    (start_date end_date : Z) (final : Pivoted) :
  pivoted_dividends frames start_date end_date = Ok final ->
  exists combined localized pivoted,
    concat frames = Ok combined /\
    localize_Date combined = Ok localized /\
    let rows := filter_range start_date end_date localized in
    pivot rows = Ok pivoted /\
    index final = index pivoted /\
    (forall d, In d (column_labels pivoted) <-> In d (map Date rows)) /\
    (forall d vs, In (d, vs) (columns final) ->
                  vs = map (fun t => cell rows t d) (index final)) /\
    (forall d,
        In d (column_labels final) <->
        In d (column_labels pivoted) /\
        ~ (every_cell eq0 rows pivoted d \/ every_cell eq1 rows pivoted d \/
           every_cell isna rows pivoted d)) /\
    (forall d t,
        In d (column_labels pivoted) -> In t (index pivoted) ->
        eq0 (cell rows t d) = false -> eq1 (cell rows t d) = false ->
        isna (cell rows t d) = false ->
        In d (column_labels final)).
Proof.
  intros (combined & localized & pivoted & Hc & Hl & Hp & ->)%pivoted_dividends_Ok.
  exists combined, localized, pivoted.
  split; [exact Hc|]. split; [exact Hl|]. cbv zeta.
  split; [exact Hp|]. split; [reflexivity|].
  split; [intros d; now apply pivot_column_labels|].
  split.
  { intros d vs Hin. unfold drop_columns in Hin; simpl in Hin.
    apply List.filter_In in Hin as [Hin _].
    destruct (pivot_Ok _ _ Hp) as [_ Hcols]. rewrite Hcols in Hin.
    apply List.in_map_iff in Hin as [d' [[= -> <-] _]]. reflexivity. }
  split; [intros d; now apply drop_columns_labels|].
  intros d t Hd Ht H0 H1 Hna.
  apply (drop_columns_labels _ _ _ Hp). split; [exact Hd|].
  intros [H|[H|H]]; specialize (H t Ht); congruence.
Qed.

(** The scenario of the specification: the column of 2023-01-01 (0.5 and 0)
    is kept, the column of 2023-02-01 (0 and 0) is dropped. *)
Lemma pivoted_dividends_drop_rule_scenario :
  pivoted_dividends [TSLY_frame; YMAX_frame] day_2023_01_01 day_2023_02_01
    = Ok scenario_table /\
  exists combined localized pivoted,
    concat [TSLY_frame; YMAX_frame] = Ok combined /\
    localize_Date combined = Ok localized /\
    pivot (filter_range day_2023_01_01 day_2023_02_01 localized) = Ok pivoted /\
    index scenario_table = index pivoted /\
    (In (to_datetime_date day_2023_02_01) (column_labels pivoted) /\
     ~ In (to_datetime_date day_2023_02_01) (column_labels scenario_table)) /\
    In (to_datetime_date day_2023_01_01) (column_labels scenario_table).
Proof.
  assert (H : pivoted_dividends [TSLY_frame; YMAX_frame]
                day_2023_01_01 day_2023_02_01 = Ok scenario_table)
    by (vm_compute; reflexivity).
  split; [exact H|].
  destruct (pivoted_dividends_drop_rule _ _ _ _ H)
    as (combined & localized & pivoted & Hc & Hl & Hp & Hi & Hdates & _ & _ & Hkeep).
  exists combined, localized, pivoted.
  split; [exact Hc|]. split; [exact Hl|]. split; [exact Hp|]. split; [exact Hi|].
  assert (Hcl : localize_Date combined
                = Ok (flat_map frame_rows [TSLY_frame; YMAX_frame])).
  { injection Hc as <-. vm_compute. reflexivity. }
  rewrite Hcl in Hl. injection Hl as <-.
  split.
  - split.
    + apply Hdates. vm_compute. tauto.
    + vm_compute. intros [[=]|[]].
  - vm_compute. left. reflexivity.
Defined.

(** ** Dictionaries *)

Section DictFacts.
Context {V : Type}.
Implicit Types (d : dict V) (k : string) (v : V).

Lemma In_dict_set k v d k' v' :
  In (k', v') (dict_set k v d) -> (k', v') = (k, v) \/ In (k', v') d.
Proof.
  induction d as [|[k0 v0] rest IH]; simpl.
  - intros [H|[]]; auto.
  - destruct (decide (k = k0)) as [->|Hne]; simpl.
    + intros [H|H]; auto.
    + intros [H|H]; auto. destruct (IH H); auto.
Qed.

Lemma In_keys_dict_set k v d k' :
  In k' (keys (dict_set k v d)) <-> k' = k \/ In k' (keys d).
Proof.
  unfold keys. induction d as [|[k0 v0] rest IH]; simpl.
  - intuition.
  - destruct (decide (k = k0)) as [->|Hne]; simpl; [intuition|].
    rewrite IH. intuition.
Qed.

Lemma In_values_dict_set k v d v' :
  In v' (values (dict_set k v d)) -> v' = v \/ In v' (values d).
Proof.
  unfold values. induction d as [|[k0 v0] rest IH]; simpl.
  - intuition.
  - destruct (decide (k = k0)) as [->|Hne]; simpl; [intuition|].
    intros [H|H]; auto. destruct (IH H); auto.
Qed.

Lemma NoDup_keys_dict_set k v d :
  List.NoDup (keys d) -> List.NoDup (keys (dict_set k v d)).
Proof.
  unfold keys. induction d as [|[k0 v0] rest IH]; simpl; intros Hnd.
  - constructor; [intros []|constructor].
  - inversion Hnd as [|? ? Hk0 Hrest]; subst.
    destruct (decide (k = k0)) as [->|Hne]; simpl.
    + constructor; assumption.
    + constructor; [|now apply IH].
      intros Hin. apply (In_keys_dict_set k v rest k0) in Hin as [->|Hin];
        [congruence|contradiction].
Qed.

Lemma NoDup_values_dict_set k v d :
  ~ In v (values d) -> List.NoDup (values d) ->
  List.NoDup (values (dict_set k v d)).
Proof.
  unfold values. induction d as [|[k0 v0] rest IH]; simpl; intros Hv Hnd.
  - constructor; [intros []|constructor].
  - inversion Hnd as [|? ? Hv0 Hrest]; subst.
    destruct (decide (k = k0)) as [->|Hne]; simpl.
    + constructor; [tauto|assumption].
    + constructor; [|apply IH; tauto].
      intros Hin. apply (In_values_dict_set k v rest v0) in Hin as [->|Hin]; tauto.
Qed.
End DictFacts.

(** ** The fetch *)

Ltac unfold_M := unfold mbind, M_bind, mret, M_ret, lift in *.

(** The fetch only allocates: it returns normally, leaves the session
    entries and the page alone, and extends the heap by one normalized table
    per requested ticker. *)
Lemma fetch_loop_spec (history : nat -> string -> HistFrame)
    (tickers : list string) :
  forall (n : nat) (data : dict HistFrame) (dividends : dict nat) (w : World),
  exists data' dividends' new,
    fetch_loop history n tickers data dividends w
    = (Ok (data', dividends'),
       {| fund_data := fund_data w; fund_dividends := fund_dividends w;
          heap := heap w ++ new; page := page w |}) /\
    (forall t l, In (t, l) dividends' ->
       In (t, l) dividends \/
       exists k, (heap w ++ new) !! l = Some (normalize_dividends (history k t))) /\
    (forall t, In t tickers \/ In t (keys dividends) -> In t (keys dividends')) /\
    (List.NoDup (keys dividends) -> List.NoDup (keys dividends')) /\
    (Forall (fun l => (l < length (heap w))%nat) (values dividends) ->
     List.NoDup (values dividends) ->
     Forall (fun l => (l < length (heap w ++ new))%nat) (values dividends') /\
     List.NoDup (values dividends')).
Proof.
  induction tickers as [|ticker rest IH]; intros n data dividends w.
  - exists data, dividends, []. simpl. rewrite app_nil_r.
    split; [destruct w; reflexivity|].
    split; [auto|]. split; [intros t [[]|H]; exact H|]. auto.
  - simpl. unfold_M. unfold alloc at 1.
    set (f := normalize_dividends (history (S n) ticker)).
    set (w1 := {| fund_data := fund_data w; fund_dividends := fund_dividends w;
                  heap := heap w ++ [f]; page := page w |}).
    destruct (IH (S (S n)) (dict_set ticker (history n ticker) data)
                 (dict_set ticker (length (heap w)) dividends) w1)
      as (data' & dividends' & new & Hrun & Hnorm & Hkeys & Hndk & Hrefs).
    exists data', dividends', (f :: new).
    assert (Happ : heap w1 ++ new = heap w ++ f :: new).
    { simpl. now rewrite <- app_assoc. }
    rewrite Happ in *.
    split; [rewrite Hrun; reflexivity|].
    split.
    { intros t l Hin. destruct (Hnorm t l Hin) as [Hin'|Hk]; [|right; exact Hk].
      apply In_dict_set in Hin' as [[= -> ->]|Hin']; [|left; exact Hin'].
      right. exists (S n). rewrite lookup_app_r by lia.
      now rewrite Nat.sub_diag. }
    split.
    { intros t Ht. apply Hkeys.
      destruct Ht as [[->|Ht]|Ht]; [right|left; exact Ht|right];
        apply In_keys_dict_set; auto. }
    split.
    { intros Hnd. apply Hndk. now apply NoDup_keys_dict_set. }
    intros Hlt Hnd. apply Hrefs.
    + apply List.Forall_forall. intros l Hl.
      simpl. rewrite length_app. simpl.
      apply In_values_dict_set in Hl as [->|Hl]; [lia|].
      rewrite List.Forall_forall in Hlt. specialize (Hlt l Hl). lia.
    + apply NoDup_values_dict_set; [|exact Hnd].
      intros Hin. rewrite List.Forall_forall in Hlt. specialize (Hlt _ Hin). lia.
Qed.

Lemma normalize_dividends_length (raw : HistFrame) :
  length (df_rows (normalize_dividends raw)) = length (hist_rows raw).
Proof. unfold normalize_dividends; simpl. apply length_map. Qed.

Lemma normalize_dividends_lookup (raw : HistFrame) (j : nat) (day : HistRow) :
  hist_rows raw !! j = Some day ->
  df_rows (normalize_dividends raw) !! j
  = Some {| r_Date := naive (h_wall day);
            r_Dividends := fillna0 (h_Dividends day) |}.
Proof.
  intros Hj. unfold normalize_dividends; simpl.
  rewrite list_lookup_fmap, Hj. reflexivity.
Qed.

Lemma normalize_dividends_rows (raw : HistFrame) :
  Forall (fun r => isna (r_Dividends r) = false /\ tz (r_Date r) = None)
         (df_rows (normalize_dividends raw)).
Proof.
  unfold normalize_dividends; simpl. apply List.Forall_forall.
  intros r [day [<- _]]%List.in_map_iff. simpl.
  split; [apply fillna0_not_na|reflexivity].
Qed.

(** C8: the fetch returns, for every requested ticker, a cached dividend
    table with one row per day of the ticker's history; on a day for which
    the service reports no distribution (a missing or zero amount) the row's
    amount is [== 0], and no row of the table has a missing amount. *)
Theorem fetch_fills_missing_dividends (history : nat -> string -> HistFrame)
    (tickers : list string) (w : World) :
  exists data dividends w',
    fetch_yieldmax_data history tickers w = (Ok (data, dividends), w') /\
    (forall ticker, In ticker tickers -> In ticker (keys dividends)) /\
    (forall ticker l, In (ticker, l) dividends ->
       exists k divs,
         heap w' !! l = Some divs /\
         length (df_rows divs) = length (hist_rows (history k ticker)) /\
         Forall (fun r => isna (r_Dividends r) = false) (df_rows divs) /\
         (forall j day,
             hist_rows (history k ticker) !! j = Some day ->
             isna (h_Dividends day) = true \/ eq0 (h_Dividends day) = true ->
             exists r,
               df_rows divs !! j = Some r /\
               wall (r_Date r) = h_wall day /\
               eq0 (r_Dividends r) = true /\
               isna (r_Dividends r) = false)).
Proof.
  unfold fetch_yieldmax_data.
  destruct (fetch_loop_spec history tickers 0 [] [] w)
    as (data & dividends & new & Hrun & Hnorm & Hkeys & _).
  eexists data, dividends, _. split; [exact Hrun|]. simpl.
  split; [intros ticker Ht; apply Hkeys; now left|].
  intros ticker l Hin. destruct (Hnorm ticker l Hin) as [[]|[k Hk]].
  exists k, (normalize_dividends (history k ticker)).
  split; [exact Hk|]. split; [apply normalize_dividends_length|].
  split.
  { eapply List.Forall_impl; [|apply normalize_dividends_rows]. now intros r [H _]. }
  intros j day Hj Hnone.
  rewrite (normalize_dividends_lookup _ _ _ Hj).
  eexists. split; [reflexivity|]. simpl.
  split; [reflexivity|]. split; [now apply fillna0_eq0|apply fillna0_not_na].
Qed.

(** The scenario: the missing amount of TSLY on 2023-02-01 is cached as 0,
    and the New York dates are cached without their zone. *)
Example fetch_trigger_scenario :
  heap (snd (fetch_trigger scenario_interaction empty_cache_world))
  = [TSLY_fetched; YMAX_fetched].
Proof. reflexivity. Qed.

(** ** Reading the cached tables *)

Lemma deref_all_world (refs : list nat) (w : World) :
  snd (deref_all refs w) = w.
Proof.
  induction refs as [|l rest IH]; simpl; [reflexivity|].
  unfold_M. unfold deref at 1.
  destruct (heap w !! l) as [f|]; [|reflexivity].
  destruct (deref_all rest w) as [[fs|e] w'] eqn:Hrest; simpl in *; exact IH.
Qed.

Lemma deref_all_Ok (P : DivFrame -> Prop) (refs : list nat) (w : World) :
  (forall l, In l refs -> exists f, heap w !! l = Some f /\ P f) ->
  exists frames,
    deref_all refs w = (Ok frames, w) /\
    Forall2 (fun l f => heap w !! l = Some f) refs frames /\
    Forall P frames.
Proof.
  induction refs as [|l rest IH]; intros Hrefs; simpl.
  - exists []. repeat split; constructor.
  - destruct (Hrefs l) as (f & Hf & HP); [now left|].
    destruct IH as (fs & Hrun & Hall & HPs); [intros; apply Hrefs; now right|].
    exists (f :: fs). unfold_M. unfold deref at 1. rewrite Hf, Hrun.
    repeat split; constructor; assumption.
Qed.

Lemma deref_all_inv (refs : list nat) (w w' : World) (frames : list DivFrame) :
  deref_all refs w = (Ok frames, w') ->
  w' = w /\ Forall2 (fun l f => heap w !! l = Some f) refs frames.
Proof.
  revert frames. induction refs as [|l rest IH]; intros frames; simpl.
  - intros [= <- <-]. split; [reflexivity|constructor].
  - unfold_M. unfold deref at 1.
    destruct (heap w !! l) as [f|] eqn:Hf; [|discriminate].
    destruct (deref_all rest w) as [[fs|e] w1] eqn:Hrest; [|discriminate].
    intros [= <- <-]. destruct (IH fs eq_refl) as [-> Hall].
    split; [reflexivity|]. constructor; assumption.
Qed.

(** ** Dates of a concatenation *)

Lemma imap_rows_Date (g : nat -> option string) (rows : list DivRow) :
  map Date (imap (fun i r => {| Ticker := g i; Date := r_Date r;
                                Dividends := r_Dividends r |}) rows)
  = map r_Date rows.
Proof.
  revert g. induction rows as [|r rest IH]; intros g; simpl; [reflexivity|].
  f_equal. apply (IH (g ∘ S)).
Qed.

Lemma frame_rows_Date (f : DivFrame) :
  map Date (frame_rows f) = map r_Date (df_rows f).
Proof. apply imap_rows_Date. Qed.

Lemma flat_map_frame_rows_Date (frames : list DivFrame) :
  map Date (flat_map frame_rows frames)
  = flat_map (fun f => map r_Date (df_rows f)) frames.
Proof.
  induction frames as [|f rest IH]; simpl; [reflexivity|].
  now rewrite List.map_app, frame_rows_Date, IH.
Qed.

Lemma uniform_tz_naive (col : list Timestamp) :
  Forall (fun t => tz t = None) col -> uniform_tz col = true.
Proof.
  destruct col as [|t rest]; [reflexivity|]. simpl.
  intros Hall. inversion Hall as [|? ? Ht Hrest]; subst.
  apply List.forallb_forall. intros u Hu.
  rewrite List.Forall_forall in Hrest. apply bool_decide_eq_true.
  now rewrite Ht, (Hrest u Hu).
Qed.

Lemma localize_Date_naive (rows : list LongRow) :
  Forall (fun r => tz (Date r) = None) rows -> localize_Date rows = Ok rows.
Proof.
  intros Hall. unfold localize_Date.
  rewrite uniform_tz_naive by (now apply List.Forall_map).
  f_equal. rewrite <- (List.map_id rows) at 2.
  apply List.map_ext_in. intros [t [wl z] v] Hr.
  rewrite List.Forall_forall in Hall. specialize (Hall _ Hr). simpl in Hall.
  subst z. reflexivity.
Qed.

Lemma localize_Date_Ok (rows localized : list LongRow) :
  localize_Date rows = Ok localized ->
  uniform_tz (map Date rows) = true /\
  localized = map (fun r => {| Ticker := Ticker r;
                               Date := tz_localize_None (Date r);
                               Dividends := Dividends r |}) rows.
Proof.
  unfold localize_Date. destruct (uniform_tz _); [|discriminate].
  intros [= <-]. auto.
Qed.

(** C9: every date of every dividend table the fetch caches is
    timezone-naive, so the concatenation of the cached tables is a datetime
    column: dropping the zone on it (lines 57 and 95) cannot raise and
    changes nothing. *)
Theorem fetch_dates_timezone_naive (history : nat -> string -> HistFrame)
    (tickers : list string) (w : World) :
  exists data dividends w',
    fetch_yieldmax_data history tickers w = (Ok (data, dividends), w') /\
    (forall ticker l, In (ticker, l) dividends ->
       exists divs,
         heap w' !! l = Some divs /\
         Forall (fun r => tz (r_Date r) = None) (df_rows divs)) /\
    exists all_dividends,
      deref_all (values dividends) w' = (Ok all_dividends, w') /\
      forall combined,
        concat all_dividends = Ok combined ->
        Forall (fun r => tz (Date r) = None) combined /\
        localize_Date combined = Ok combined.
Proof.
  unfold fetch_yieldmax_data.
  destruct (fetch_loop_spec history tickers 0 [] [] w)
    as (data & dividends & new & Hrun & Hnorm & _).
  eexists data, dividends, _. split; [exact Hrun|]. simpl.
  assert (Hnaive : forall ticker l, In (ticker, l) dividends ->
            exists divs, (heap w ++ new) !! l = Some divs /\
                         Forall (fun r => tz (r_Date r) = None) (df_rows divs)).
  { intros ticker l Hin. destruct (Hnorm ticker l Hin) as [[]|[k Hk]].
    eexists. split; [exact Hk|].
    eapply List.Forall_impl; [|apply normalize_dividends_rows]. now intros r [_ H]. }
  split; [exact Hnaive|].
  destruct (deref_all_Ok (fun f => Forall (fun r => tz (r_Date r) = None) (df_rows f))
              (values dividends)
              {| fund_data := fund_data w; fund_dividends := fund_dividends w;
                 heap := heap w ++ new; page := page w |})
    as (frames & Hderef & _ & Hframes).
  { intros l [[ticker l'] [Hl Hin]]%List.in_map_iff. simpl in Hl; subst l'.
    simpl. eauto. }
  exists frames. split; [exact Hderef|].
  intros combined Hc.
  assert (Hall : Forall (fun r => tz (Date r) = None) combined).
  { destruct frames as [|f fs]; [discriminate|]. injection Hc as <-.
    apply List.Forall_forall. intros r Hr.
    assert (Hd : In (Date r) (map Date (flat_map frame_rows (f :: fs))))
      by (now apply List.in_map).
    rewrite flat_map_frame_rows_Date in Hd.
    apply List.in_flat_map in Hd as (f' & Hf' & Hd).
    apply List.in_map_iff in Hd as (row & Hrow & Hin).
    rewrite List.Forall_forall in Hframes. specialize (Hframes f' Hf').
    rewrite List.Forall_forall in Hframes. rewrite <- Hrow. now apply Hframes. }
  split; [exact Hall|now apply localize_Date_naive].
Qed.

(** ** Minimum and maximum of a date column *)

Lemma fold_left_ts_min (rest : list Timestamp) (t : Timestamp) :
  In (fold_left ts_min rest t) (t :: rest) /\
  forall d, In d (t :: rest) -> wall (fold_left ts_min rest t) <= wall d.
Proof.
  revert t. induction rest as [|u rest IH]; intros t; simpl.
  - split; [now left|]. intros d [<-|[]]. lia.
  - destruct (IH (ts_min t u)) as [Hin Hle]. split.
    + destruct Hin as [Hin|Hin]; [|now right; right].
      rewrite <- Hin. unfold ts_min. destruct (ts_leb t u); auto.
    + intros d Hd.
      assert (Hm : wall (ts_min t u) <= wall t /\ wall (ts_min t u) <= wall u).
      { unfold ts_min, ts_leb. destruct (Z.leb_spec (wall t) (wall u)); lia. }
      assert (H0 := Hle (ts_min t u) (or_introl eq_refl)).
      destruct Hd as [<-|[<-|Hd]]; [lia|lia|].
      apply Hle. now right.
Qed.

Lemma fold_left_ts_max (rest : list Timestamp) (t : Timestamp) :
  In (fold_left ts_max rest t) (t :: rest) /\
  forall d, In d (t :: rest) -> wall d <= wall (fold_left ts_max rest t).
Proof.
  revert t. induction rest as [|u rest IH]; intros t; simpl.
  - split; [now left|]. intros d [<-|[]]. lia.
  - destruct (IH (ts_max t u)) as [Hin Hle]. split.
    + destruct Hin as [Hin|Hin]; [|now right; right].
      rewrite <- Hin. unfold ts_max. destruct (ts_leb t u); auto.
    + intros d Hd.
      assert (Hm : wall t <= wall (ts_max t u) /\ wall u <= wall (ts_max t u)).
      { unfold ts_max, ts_leb. destruct (Z.leb_spec (wall t) (wall u)); lia. }
      assert (H0 := Hle (ts_max t u) (or_introl eq_refl)).
      destruct Hd as [<-|[<-|Hd]]; [lia|lia|].
      apply Hle. now right.
Qed.

Lemma Series_min_max_nonempty (col : list Timestamp) :
  col <> [] ->
  exists lo hi,
    Series_min col = Some lo /\ Series_max col = Some hi /\
    In lo col /\ In hi col /\
    forall d, In d col -> wall lo <= wall d <= wall hi.
Proof.
  destruct col as [|t rest]; [congruence|]. intros _.
  destruct (fold_left_ts_min rest t) as [Hlo Hmin].
  destruct (fold_left_ts_max rest t) as [Hhi Hmax].
  exists (fold_left ts_min rest t), (fold_left ts_max rest t). simpl.
  repeat split; auto.
Qed.

Lemma deref_all_refers_to (w : World) (cache : dict nat) (frames : list DivFrame) :
  refers_to w cache frames -> deref_all (values cache) w = (Ok frames, w).
Proof.
  unfold refers_to. generalize (values cache). intros refs Hall.
  induction Hall as [|l f refs frames Hl Hall IH]; simpl; [reflexivity|].
  unfold_M. unfold deref at 1. now rewrite Hl, IH.
Qed.

Lemma concat_Dates (frames : list DivFrame) (combined : list LongRow) :
  concat frames = Ok combined -> map Date combined = all_dates frames.
Proof.
  destruct frames as [|f fs]; [discriminate|]. intros [= <-].
  apply (flat_map_frame_rows_Date (f :: fs)).
Qed.

(** C2: with an empty dividend cache the resolver answers exactly
    (2000-01-01, today) and leaves the world alone; with a non-empty cache
    of tables whose dates share one time zone it answers the minimum and the
    maximum of the dates of all cached tables, which are dates of the union
    bounding every date of the union as soon as the union has a date. *)
Theorem resolve_date_range_spec (today : Z) (w : World) :
  (fund_dividends w = Some [] ->
   resolve_date_range today w
   = (Ok (Some datetime_2000_1_1, Some (naive today)), w)) /\
  (forall cache frames,
     fund_dividends w = Some cache -> cache <> [] ->
     refers_to w cache frames ->
     uniform_tz (all_dates frames) = true ->
     let dates := cached_dates frames in
     resolve_date_range today w = (Ok (Series_min dates, Series_max dates), w) /\
     (dates <> [] ->
      exists lo hi,
        Series_min dates = Some lo /\ Series_max dates = Some hi /\
        In lo dates /\ In hi dates /\
        forall d, In d dates -> wall lo <= wall d <= wall hi)).
Proof.
  split.
  - intros Hc. unfold resolve_date_range, get_fund_dividends. unfold_M.
    rewrite Hc. reflexivity.
  - intros cache frames Hc Hne Hrefs Htz dates.
    split; [|apply Series_min_max_nonempty].
    unfold resolve_date_range, get_fund_dividends. unfold_M. rewrite Hc.
    destruct cache as [|entry cache']; [congruence|].
    change (truthy (entry :: cache')) with true. cbv beta iota.
    rewrite (deref_all_refers_to _ _ _ Hrefs).
    assert (Hfs : exists f fs, frames = f :: fs).
    { unfold refers_to in Hrefs. simpl in Hrefs. inversion Hrefs; eauto. }
    destruct Hfs as (f & fs & ->).
    assert (Hcat : concat (f :: fs) = Ok (flat_map frame_rows (f :: fs)))
      by reflexivity.
    rewrite Hcat. unfold localize_Date.
    rewrite (concat_Dates _ _ Hcat), Htz.
    rewrite List.map_map. simpl Date.
    rewrite <- (List.map_map Date tz_localize_None), (concat_Dates _ _ Hcat).
    reflexivity.
Qed.

(** The resolver on an empty cache and on the scenario's cache. *)
Lemma resolve_date_range_spec_scenario :
  resolve_date_range (20395 * ns_per_day) empty_cache_world
  = (Ok (Some datetime_2000_1_1, Some (naive (20395 * ns_per_day))),
     empty_cache_world) /\
  resolve_date_range (20395 * ns_per_day) scenario_world
  = (Ok (Some (to_datetime_date day_2023_01_01),
         Some (to_datetime_date day_2023_02_01)), scenario_world).
Proof.
  split.
  - apply (proj1 (resolve_date_range_spec (20395 * ns_per_day) empty_cache_world)).
    reflexivity.
  - apply (proj2 (resolve_date_range_spec (20395 * ns_per_day) scenario_world)
             scenario_cache [TSLY_frame; YMAX_frame]).
    + reflexivity.
    + discriminate.
    + repeat constructor.
    + reflexivity.
Defined.

(** C3 (failing input): a fetch for which the service returns no rows leaves
    a non-empty cache of empty tables; the guard of line 54 lets it through
    and both bounds come out as [NaT] instead of dates. *)
Theorem resolve_date_range_empty_tables :
  let w := snd (script_head no_data_interaction session_start) in
  fund_dividends w = Some [("YMAX", 0%nat)] /\
  heap w = [ {| df_rows := []; df_Ticker := None |} ] /\
  resolve_date_range (today no_data_interaction) w = (Ok (None, None), w).
Proof. vm_compute. repeat split; reflexivity. Qed.

(** ** The tagging loop (lines 88-91) *)

Lemma set_Ticker_rows (ticker : string) (f : DivFrame) :
  df_rows (set_Ticker ticker f) = df_rows f.
Proof. reflexivity. Qed.

Lemma map_df_rows_insert (h : list DivFrame) (l : nat) (ticker : string) (f : DivFrame) :
  h !! l = Some f ->
  map df_rows (<[l := set_Ticker ticker f]> h) = map df_rows h.
Proof.
  intros Hl. change (df_rows <$> <[l := set_Ticker ticker f]> h = df_rows <$> h).
  rewrite list_fmap_insert, set_Ticker_rows.
  apply list_insert_id. now rewrite list_lookup_fmap, Hl.
Qed.

(** Whatever the loop meets, it leaves the session entries, the page and
    every table's [Date] and [Dividends] columns as they were, and touches
    no object other than those the cache refers to. *)
Lemma tag_all_frame (items : list (string * nat)) :
  forall w : World,
    let w' := snd (tag_all items w) in
    fund_data w' = fund_data w /\
    fund_dividends w' = fund_dividends w /\
    page w' = page w /\
    map df_rows (heap w') = map df_rows (heap w) /\
    forall l, ~ In l (map snd items) -> heap w' !! l = heap w !! l.
Proof.
  induction items as [|[ticker l] rest IH]; intros w; simpl.
  - repeat split; reflexivity.
  - unfold_M. unfold setitem_Ticker.
    destruct (heap w !! l) as [f|] eqn:Hl; [|simpl; repeat split; reflexivity].
    set (w1 := {| fund_data := fund_data w; fund_dividends := fund_dividends w;
                  heap := <[l := set_Ticker ticker f]> (heap w); page := page w |}).
    specialize (IH w1). simpl in IH.
    destruct (tag_all rest w1) as [[refs|e] w2]; simpl in *;
      destruct IH as (Hd & Hc & Hp & Hrows & Hother);
      (split; [exact Hd|]; split; [exact Hc|]; split; [exact Hp|]; split;
       [rewrite Hrows; now apply map_df_rows_insert|];
       intros l' Hl'; rewrite Hother by tauto;
       apply list_lookup_insert_ne; intros ->; tauto).
Qed.

(** On a cache whose references are valid and pairwise distinct the loop
    finishes and every cached table carries its own key as [Ticker]. *)
Lemma tag_all_Ok (items : list (string * nat)) :
  forall w : World,
    List.NoDup (map snd items) ->
    (forall l, In l (map snd items) -> is_Some (heap w !! l)) ->
    exists w',
      tag_all items w = (Ok (map snd items), w') /\
      forall ticker l f,
        In (ticker, l) items -> heap w !! l = Some f ->
        heap w' !! l = Some (set_Ticker ticker f).
Proof.
  induction items as [|[ticker l] rest IH]; intros w Hnd Hvalid; simpl.
  - exists w. split; [reflexivity|]. intros ? ? ? [].
  - simpl in Hnd. inversion Hnd as [|? ? Hl Hrest]; subst.
    destruct (Hvalid l) as [f Hf]; [now left|].
    unfold_M. unfold setitem_Ticker at 1. rewrite Hf.
    set (w1 := {| fund_data := fund_data w; fund_dividends := fund_dividends w;
                  heap := <[l := set_Ticker ticker f]> (heap w); page := page w |}).
    assert (Hne : forall l', In l' (map snd rest) -> heap w1 !! l' = heap w !! l').
    { intros l' Hl'. simpl. apply list_lookup_insert_ne. intros ->. tauto. }
    destruct (IH w1 Hrest) as (w2 & Hrun & Htag).
    { intros l' Hl'. rewrite Hne by exact Hl'. apply Hvalid. now right. }
    assert (Hframe := tag_all_frame rest w1). rewrite Hrun in Hframe.
    simpl in Hframe. destruct Hframe as (_ & _ & _ & _ & Hother).
    exists w2. rewrite Hrun. split; [reflexivity|].
    intros t0 l0 f0 [[= -> ->]|Hin] Hf0.
    + rewrite Hother by exact Hl.
      rewrite Hf in Hf0. injection Hf0 as <-.
      apply list_lookup_insert_eq. now apply lookup_lt_Some in Hf.
    + assert (Hl0 : In l0 (map snd rest)).
      { apply List.in_map_iff. now exists (t0, l0). }
      apply (Htag t0 l0 f0 Hin). now rewrite Hne.
Qed.

(** ** What each step does to the world *)

Lemma resolve_date_range_world (today : Z) (w : World) :
  snd (resolve_date_range today w) = w.
Proof.
  unfold resolve_date_range, get_fund_dividends. unfold_M.
  destruct (fund_dividends w) as [cache|]; [|reflexivity].
  destruct (truthy cache); [|reflexivity].
  pose proof (deref_all_world (values cache) w) as Hw.
  destruct (deref_all (values cache) w) as [[frames|e] w']; simpl in Hw; subst w';
    [|reflexivity].
  destruct (concat frames) as [combined|]; [|reflexivity].
  destruct (localize_Date combined); reflexivity.
Qed.

Lemma date_filter_world (i : Interaction)
    (bounds : option Timestamp * option Timestamp) (w : World) :
  snd (date_filter i bounds w)
  = {| fund_data := fund_data w; fund_dividends := fund_dividends w;
       heap := heap w; page := page w ++ [st_sidebar_title "Filter Date Range"] |}.
Proof.
  unfold date_filter. destruct bounds as [min_date max_date].
  unfold_M. unfold render.
  destruct (date_input min_date min_date max_date _ (start_choice i));
    [|reflexivity].
  destruct (date_input max_date min_date max_date _ (end_choice i)); reflexivity.
Qed.

Lemma price_chart_world (w : World) :
  snd (price_chart w)
  = {| fund_data := fund_data w; fund_dividends := fund_dividends w;
       heap := heap w;
       page := page w ++
               match fund_data w with
               | Some ((_ :: _) as data) =>
                   [st_subheader "Fund Values Since Inception";
                    st_plotly_chart (fig data)]
               | _ => []
               end |}.
Proof.
  unfold price_chart, get_fund_data. unfold_M. unfold render.
  destruct w as [[[|entry data]|] fd h pg]; simpl; rewrite ?app_nil_r;
    try reflexivity.
  now rewrite <- app_assoc.
Qed.

Lemma dividend_chart_world (pivoted : Pivoted) (w : World) :
  dividend_chart pivoted w
  = (Ok (),
     {| fund_data := fund_data w; fund_dividends := fund_dividends w;
        heap := heap w;
        page := page w ++ [st_subheader "Dividends Visualization";
                           st_plotly_chart (fig_dividends pivoted)] |}).
Proof.
  unfold dividend_chart. unfold_M. unfold render. simpl.
  now rewrite <- app_assoc.
Qed.

(** The table builder changes the heap exactly as its tagging loop does;
    to the page it adds its subheader and, when it gets that far, the
    table. *)
Lemma dividend_table_world (cache : dict nat) (start_date end_date : Z) (w : World) :
  let w0 := {| fund_data := fund_data w; fund_dividends := fund_dividends w;
               heap := heap w;
               page := page w ++ [st_subheader "Dividends Paid for All Selected Funds"] |} in
  let w1 := snd (tag_all cache w0) in
  let w' := snd (dividend_table cache start_date end_date w) in
  fund_data w' = fund_data w /\
  fund_dividends w' = fund_dividends w /\
  heap w' = heap w1 /\
  exists shown,
    page w' = page w ++ st_subheader "Dividends Paid for All Selected Funds" :: shown /\
    price_charts shown = [].
Proof.
  intros w0 w1 w'. subst w'. unfold dividend_table. unfold_M. unfold render.
  fold w0.
  destruct (tag_all_frame cache w0) as (Hd & Hc & Hp & _). fold w1 in Hd, Hc, Hp.
  subst w1. destruct (tag_all cache w0) as [[refs|e] w1]; simpl in *.
  2:{ repeat split; auto. exists []. split; [now rewrite Hp|reflexivity]. }
  destruct refs as [|l refs'].
  { simpl. repeat split; auto. exists []. split; [now rewrite Hp|reflexivity]. }
  pose proof (deref_all_world (l :: refs') w1) as Hw.
  destruct (deref_all (l :: refs') w1) as [[frames|e] w2]; simpl in Hw; subst w2.
  2:{ simpl. repeat split; auto. exists []. split; [now rewrite Hp|reflexivity]. }
  destruct (pivoted_dividends frames start_date end_date) as [pivoted|e]; simpl.
  - repeat split; auto. exists [st_dataframe pivoted].
    split; [now rewrite Hp, <- app_assoc|reflexivity].
  - repeat split; auto. exists []. split; [now rewrite Hp|reflexivity].
Qed.

(** ** The cache across the steps of a rerun *)

(** C4 (counterexample): right after the fetch of the scenario the cached
    tables have no [Ticker] column; building the dividend table writes one
    into each of them, so that step does not leave the cache as it was. *)
Lemma dividend_table_changes_cached_tables :
  fund_dividends fetched_world = Some scenario_cache /\
  heap fetched_world = [TSLY_fetched; YMAX_fetched] /\
  heap (snd (dividend_table scenario_cache day_2023_01_01 day_2023_02_01
                            fetched_world))
  = [TSLY_frame; YMAX_frame] /\
  ~ same_cache (snd (dividend_table scenario_cache day_2023_01_01 day_2023_02_01
                                    fetched_world))
               fetched_world /\
  heap (snd (script scenario_interaction session_start)) <> heap fetched_world.
Proof.
  split; [reflexivity|]. split; [reflexivity|].
  split; [vm_compute; reflexivity|].
  split.
  - intros (_ & _ & Hheap). vm_compute in Hheap. discriminate Hheap.
  - intros Hheap. vm_compute in Hheap. discriminate Hheap.
Qed.

(** C4 (amended): resolving the date range, the date widgets, the price
    chart and the dividend chart leave both cached maps and every cached
    table unchanged.  Building the dividend table leaves both maps and the
    [Date] and [Dividends] columns of every table unchanged and touches no
    object outside the cache, but it writes the key of each cached table
    into that table's [Ticker] column. *)
Theorem non_fetch_steps_and_the_cache (w : World) :
  (forall today, same_cache (snd (resolve_date_range today w)) w) /\
  (forall i bounds, same_cache (snd (date_filter i bounds w)) w) /\
  same_cache (snd (price_chart w)) w /\
  (forall pivoted, same_cache (snd (dividend_chart pivoted w)) w) /\
  (forall cache start_date end_date,
     let w' := snd (dividend_table cache start_date end_date w) in
     fund_data w' = fund_data w /\
     fund_dividends w' = fund_dividends w /\
     map df_rows (heap w') = map df_rows (heap w) /\
     (forall l, ~ In l (values cache) -> heap w' !! l = heap w !! l) /\
     (List.NoDup (values cache) ->
      (forall l, In l (values cache) -> is_Some (heap w !! l)) ->
      forall ticker l f,
        In (ticker, l) cache -> heap w !! l = Some f ->
        heap w' !! l = Some (set_Ticker ticker f))).
Proof.
  split; [intros today; rewrite resolve_date_range_world; repeat split|].
  split; [intros i bounds; rewrite date_filter_world; repeat split|].
  split; [rewrite price_chart_world; repeat split|].
  split; [intros pivoted; rewrite dividend_chart_world; repeat split|].
  intros cache start_date end_date w'. subst w'.
  destruct (dividend_table_world cache start_date end_date w)
    as (Hd & Hc & Hh & _).
  set (w0 := {| fund_data := fund_data w; fund_dividends := fund_dividends w;
                heap := heap w;
                page := page w ++ [st_subheader "Dividends Paid for All Selected Funds"] |})
    in Hh.
  destruct (tag_all_frame cache w0) as (_ & _ & _ & Hrows & Hother).
  split; [exact Hd|]. split; [exact Hc|]. rewrite Hh.
  split; [exact Hrows|]. split; [exact Hother|].
  intros Hnd Hvalid ticker l f Hin Hf.
  destruct (tag_all_Ok cache w0 Hnd Hvalid) as (w1 & Hrun & Htag).
  rewrite Hrun. simpl. now apply (Htag ticker l f).
Qed.

(** A use of the table step on the scenario: both cached tables get their
    key as [Ticker]. *)
Lemma non_fetch_steps_and_the_cache_scenario :
  heap (snd (dividend_table scenario_cache day_2023_01_01 day_2023_02_01
                            fetched_world)) !! 1%nat
  = Some YMAX_frame.
Proof.
  destruct (non_fetch_steps_and_the_cache fetched_world)
    as (_ & _ & _ & _ & Htable).
  destruct (Htable scenario_cache day_2023_01_01 day_2023_02_01)
    as (_ & _ & _ & _ & Htag).
  apply (Htag ltac:(repeat constructor; simpl; intuition discriminate)
              ltac:(intros l [<-|[<-|[]]]; eexists; reflexivity)
              "YMAX" 1%nat {| df_rows := df_rows YMAX_frame; df_Ticker := None |}).
  - right. left. reflexivity.
  - reflexivity.
Defined.

(** ** One rerun, step by step *)

Lemma fetch_trigger_Ok (i : Interaction) (w : World) :
  fst (fetch_trigger i w) = Ok ().
Proof.
  unfold fetch_trigger. destruct (button i); [|reflexivity].
  unfold_M. unfold render, fetch_yieldmax_data.
  match goal with |- context [fetch_loop ?h ?n ?t ?d ?v ?w0] =>
    destruct (fetch_loop_spec h t n d v w0) as (data & dividends & new & -> & _)
  end.
  reflexivity.
Qed.

Lemma script_head_Ok (i : Interaction) (w : World) :
  script_head i w = (Ok (), snd (script_head i w)).
Proof.
  unfold script_head. unfold_M. unfold clear_page, render, init_session_state.
  match goal with |- context [fetch_trigger i ?w0] =>
    pose proof (fetch_trigger_Ok i w0) as H; destruct (fetch_trigger i w0) as [r w1]
  end.
  simpl in H. subst r. reflexivity.
Qed.

(** The head of the script reads nothing of the two date widgets. *)
Lemma script_head_ext (i1 i2 : Interaction) (w : World) :
  selected_tickers i1 = selected_tickers i2 ->
  button i1 = button i2 ->
  history i1 = history i2 ->
  script_head i1 w = script_head i2 w.
Proof.
  intros Hs Hb Hh. unfold script_head, fetch_trigger.
  now rewrite Hs, Hb, Hh.
Qed.

Lemma script_unfold (i : Interaction) (w wa : World) :
  script_head i w = (Ok (), wa) ->
  script i w =
  match fst (resolve_date_range (today i) wa) with
  | Ok bounds =>
      match date_filter i bounds wa with
      | (Ok range, wc) =>
          match price_chart wc with
          | (Ok _, wd) =>
              match dividends_section (fst range) (snd range) wd with
              | (Ok _, we) => (Ok range, we)
              | (Raise e, we) => (Raise e, we)
              end
          | (Raise e, wd) => (Raise e, wd)
          end
      | (Raise e, wc) => (Raise e, wc)
      end
  | Raise e => (Raise e, wa)
  end.
Proof.
  intros Hhead. unfold script. unfold mbind at 1. unfold M_bind at 1.
  rewrite Hhead.
  unfold mbind at 1. unfold M_bind at 1.
  pose proof (resolve_date_range_world (today i) wa) as Hw.
  destruct (resolve_date_range (today i) wa) as [[bounds|e] wb];
    simpl in Hw; subst wb; simpl fst; cbv iota; [|reflexivity].
  unfold_M.
  destruct (date_filter i bounds wa) as [[range|e] wc]; [|reflexivity].
  destruct (price_chart wc) as [[[]|e] wd]; [|reflexivity].
  destruct (dividends_section (fst range) (snd range) wd) as [[[]|e] we];
    reflexivity.
Qed.

(** ** The date range *)

Lemma date_input_Ok (value min_value max_value : option Timestamp)
    (resets : bool) (choice : option Z) (d : Z) :
  date_input value min_value max_value resets choice = Ok d ->
  exists v lo hi,
    value = Some v /\ min_value = Some lo /\ max_value = Some hi /\
    date lo <= date v <= date hi /\
    (choice = None -> d = date v) /\
    (forall c, choice = Some c -> date lo <= c <= date hi -> d = c) /\
    (date lo <= d <= date hi \/ choice = Some d).
Proof.
  unfold date_input.
  destruct value as [v|], min_value as [lo|], max_value as [hi|]; try discriminate.
  destruct (Z.leb_spec (date lo) (date v)); simpl; [|discriminate].
  destruct (Z.leb_spec (date v) (date hi)); simpl; [|discriminate].
  destruct choice as [c|].
  - destruct (Z.leb_spec (date lo) c), (Z.leb_spec c (date hi)), resets; simpl;
      intros [= <-]; exists v, lo, hi;
      (split; [reflexivity|]; split; [reflexivity|]; split; [reflexivity|];
       split; [lia|]; split; [discriminate|]; split;
       [intros c' [= <-] Hc'; lia|first [left; lia|right; reflexivity]]).
  - intros [= <-]. exists v, lo, hi.
    split; [reflexivity|]. split; [reflexivity|]. split; [reflexivity|].
    split; [lia|]. split; [reflexivity|]. split; [discriminate|]. left. lia.
Qed.

(** Whether a date widget raises, and what, is decided by its three
    arguments alone. *)
Lemma date_input_cases (value min_value max_value : option Timestamp) :
  (exists e, (e = StreamlitAPIException \/ e = ValueError_NaT) /\
             forall resets choice,
               date_input value min_value max_value resets choice = Raise e) \/
  (forall resets choice,
      exists d, date_input value min_value max_value resets choice = Ok d).
Proof.
  unfold date_input.
  destruct value as [v|], min_value as [lo|], max_value as [hi|];
    try (left; exists ValueError_NaT; split; [now right|reflexivity]).
  destruct ((date lo <=? date v) && (date v <=? date hi)).
  - right. intros resets [c|]; [|eauto].
    destruct ((date lo <=? c) && (c <=? date hi)); [eauto|].
    destruct resets; eauto.
  - left. exists StreamlitAPIException. split; [now left|reflexivity].
Qed.

Lemma date_filter_Ok (i : Interaction) (bounds : option Timestamp * option Timestamp)
    (w w' : World) (start_date end_date : Z) :
  date_filter i bounds w = (Ok (start_date, end_date), w') ->
  exists min_date max_date,
    bounds = (Some min_date, Some max_date) /\
    date min_date <= date max_date /\
    (start_choice i = None -> start_date = date min_date) /\
    (end_choice i = None -> end_date = date max_date) /\
    (forall c, start_choice i = Some c ->
               date min_date <= c <= date max_date -> start_date = c) /\
    (forall c, end_choice i = Some c ->
               date min_date <= c <= date max_date -> end_date = c) /\
    (date min_date <= start_date <= date max_date \/
     start_choice i = Some start_date) /\
    (date min_date <= end_date <= date max_date \/
     end_choice i = Some end_date).
Proof.
  unfold date_filter. destruct bounds as [min_date max_date].
  unfold_M. unfold render.
  destruct (date_input min_date min_date max_date _ (start_choice i)) as [s|] eqn:Hs;
    [|discriminate].
  destruct (date_input max_date min_date max_date _ (end_choice i)) as [e|] eqn:He;
    [|discriminate].
  intros [= <- <- <-].
  apply date_input_Ok in Hs as (v & lo & hi & -> & Hlo & -> & Hv & Hn & Hc & Hb).
  injection Hlo as <-.
  apply date_input_Ok in He
    as (v' & lo' & hi' & Hv' & Hlo' & Hhi' & _ & Hn' & Hc' & Hb').
  injection Hv' as <-. injection Hlo' as <-. injection Hhi' as <-.
  exists v, hi. repeat split; try lia; assumption.
Qed.

(** Whether the date filter raises, and what, does not depend on what the
    widgets hold. *)
Lemma date_filter_cases (bounds : option Timestamp * option Timestamp) (w : World) :
  (exists e, (e = StreamlitAPIException \/ e = ValueError_NaT) /\
             forall i, fst (date_filter i bounds w) = Raise e) \/
  (forall i, exists range, fst (date_filter i bounds w) = Ok range).
Proof.
  destruct bounds as [min_date max_date].
  destruct (date_input_cases min_date min_date max_date) as [(e & He & Hs)|Hs].
  { left. exists e. split; [exact He|]. intros i.
    unfold date_filter. unfold_M. unfold render. now rewrite Hs. }
  destruct (date_input_cases max_date min_date max_date) as [(e & He & Hd)|Hd].
  { left. exists e. split; [exact He|]. intros i.
    unfold date_filter. unfold_M. unfold render.
    destruct (Hs (date_input_resets i) (start_choice i)) as [s ->].
    now rewrite Hd. }
  right. intros i. unfold date_filter. unfold_M. unfold render.
  destruct (Hs (date_input_resets i) (start_choice i)) as [s ->].
  destruct (Hd (date_input_resets i) (end_choice i)) as [d ->].
  simpl. eauto.
Qed.

Lemma date_filter_Raise (i : Interaction) (bounds : option Timestamp * option Timestamp)
    (w w' : World) (e : Exception) :
  date_filter i bounds w = (Raise e, w') ->
  e = StreamlitAPIException \/ e = ValueError_NaT.
Proof.
  intros Hf. destruct (date_filter_cases bounds w) as [(e' & He' & Hall)|Hall].
  - specialize (Hall i). rewrite Hf in Hall. simpl in Hall. now injection Hall as ->.
  - destruct (Hall i) as [range Hr]. rewrite Hf in Hr. discriminate.
Qed.

(** C5 (counterexample): after the scenario's fetch the user sets the start
    to 2023-02-01 and the end to 2023-01-01; both widgets accept their day
    and the rerun works with a range whose start lies after its end. *)
Lemma start_date_after_end_date :
  reachable (snd (script scenario_interaction session_start)) /\
  fst (script reversed_interaction (snd (script scenario_interaction session_start)))
  = Ok (day_2023_02_01, day_2023_01_01) /\
  ~ (day_2023_02_01 <= day_2023_01_01).
Proof.
  split; [apply reachable_rerun, reachable_start|].
  split; [vm_compute; reflexivity|].
  unfold day_2023_02_01, day_2023_01_01. lia.
Qed.

(** C5 (amended): in every rerun that completes, the bounds the resolver
    produced are two dates [min_date <= max_date] (as calendar days); a
    widget the user did not touch yields its bound, so that the untouched
    range has [start <= end]; a widget holding a day within the bounds
    yields that day, whatever the other widget holds; and a start or an end
    outside the bounds can only be the day its own widget holds. *)
Theorem date_range_within_bounds (i : Interaction) (w : World)
    (start_date end_date : Z) :
  fst (script i w) = Ok (start_date, end_date) ->
  exists min_date max_date,
    fst (resolve_date_range (today i) (snd (script_head i w)))
    = Ok (Some min_date, Some max_date) /\
    date min_date <= date max_date /\
    (start_choice i = None -> start_date = date min_date) /\
    (end_choice i = None -> end_date = date max_date) /\
    (forall c, start_choice i = Some c ->
               date min_date <= c <= date max_date -> start_date = c) /\
    (forall c, end_choice i = Some c ->
               date min_date <= c <= date max_date -> end_date = c) /\
    (date min_date <= start_date <= date max_date \/
     start_choice i = Some start_date) /\
    (date min_date <= end_date <= date max_date \/
     end_choice i = Some end_date) /\
    (start_choice i = None -> end_choice i = None -> start_date <= end_date).
Proof.
  rewrite (script_unfold i w _ (script_head_Ok i w)).
  destruct (fst (resolve_date_range _ _)) as [bounds|e]; [|discriminate].
  destruct (date_filter i bounds _) as [[[s e]|ex] wc] eqn:Hf; [|discriminate].
  destruct (price_chart wc) as [[[]|ex] wd]; [|discriminate].
  destruct (dividends_section _ _ wd) as [[[]|ex] we]; [|discriminate].
  simpl. intros [= <- <-].
  apply date_filter_Ok in Hf
    as (min_date & max_date & -> & Hb & Hsn & Hen & Hsc & Hec & Hsb & Heb).
  exists min_date, max_date.
  split; [reflexivity|]. split; [exact Hb|]. split; [exact Hsn|].
  split; [exact Hen|]. split; [exact Hsc|]. split; [exact Hec|].
  split; [exact Hsb|]. split; [exact Heb|].
  intros Hs He. rewrite (Hsn Hs), (Hen He). exact Hb.
Qed.

(** The scenario's first rerun: the untouched range is the whole span. *)
Lemma date_range_within_bounds_scenario :
  fst (script scenario_interaction session_start)
  = Ok (day_2023_01_01, day_2023_02_01) /\
  exists min_date max_date,
    fst (resolve_date_range (today scenario_interaction)
           (snd (script_head scenario_interaction session_start)))
    = Ok (Some min_date, Some max_date) /\
    day_2023_01_01 = date min_date /\
    day_2023_02_01 = date max_date /\
    day_2023_01_01 <= day_2023_02_01.
Proof.
  assert (H : fst (script scenario_interaction session_start)
              = Ok (day_2023_01_01, day_2023_02_01)) by (vm_compute; reflexivity).
  split; [exact H|].
  destruct (date_range_within_bounds _ _ _ _ H)
    as (min_date & max_date & Hr & _ & Hs & He & _ & _ & _ & _ & Hle).
  exists min_date, max_date.
  split; [exact Hr|]. split; [apply Hs; reflexivity|].
  split; [apply He; reflexivity|]. apply Hle; reflexivity.
Defined.

(** A held day before the first cached date: an older release hands it
    back, a newer one resets it to the default; neither raises. *)
Example out_of_bounds_day_is_not_rejected :
  fst (script (out_of_bounds_interaction false)
              (snd (script scenario_interaction session_start)))
  = Ok (19327, day_2023_02_01) /\
  fst (script (out_of_bounds_interaction true)
              (snd (script scenario_interaction session_start)))
  = Ok (day_2023_01_01, day_2023_02_01).
Proof. split; vm_compute; reflexivity. Qed.

(** ** The price chart *)

Lemma price_charts_app (pg1 pg2 : list Element) :
  price_charts (pg1 ++ pg2) = price_charts pg1 ++ price_charts pg2.
Proof. apply List.filter_app. Qed.

(** Nothing the dividends section renders is a price chart. *)
Lemma dividends_section_price_charts (start_date end_date : Z) (w : World) :
  price_charts (page (snd (dividends_section start_date end_date w)))
  = price_charts (page w).
Proof.
  unfold dividends_section, get_fund_dividends. unfold_M.
  destruct (fund_dividends w) as [cache|]; [|reflexivity].
  destruct (truthy cache).
  2:{ unfold render; simpl. rewrite price_charts_app. simpl. apply app_nil_r. }
  destruct (dividend_table_world cache start_date end_date w)
    as (_ & _ & _ & shown & Hpage & Hshown).
  unfold price_charts in *.
  destruct (dividend_table cache start_date end_date w) as [[[pivoted|]|e] w1];
    simpl in Hpage; rewrite ?dividend_chart_world; unfold render; simpl;
    rewrite Hpage, ?List.filter_app; simpl; rewrite ?Hshown, ?app_nil_r;
    reflexivity.
Qed.

(** The price charts on the page once the script has reached the date
    widgets: they depend on the world the widgets were reached in and on
    whether the widgets raise, not on the range. *)
Lemma past_date_filter_price_charts (i : Interaction)
    (bounds : option Timestamp * option Timestamp) (wa : World) :
  forall result,
    result =
      match date_filter i bounds wa with
      | (Ok range, wc) =>
          match price_chart wc with
          | (Ok _, wd) =>
              match dividends_section (fst range) (snd range) wd with
              | (Ok _, we) => (Ok range, we)
              | (Raise e, we) => (Raise e, we)
              end
          | (Raise e, wd) => (Raise e, wd)
          end
      | (Raise e, wc) => (Raise e, wc)
      end ->
    let wc := {| fund_data := fund_data wa;
                 fund_dividends := fund_dividends wa;
                 heap := heap wa;
                 page := page wa ++ [st_sidebar_title "Filter Date Range"] |} in
    price_charts (page (snd result))
    = match fst (date_filter i bounds wa) with
      | Ok _ => price_charts (page (snd (price_chart wc)))
      | Raise _ => price_charts (page wc)
      end.
Proof.
  intros result -> wc0.
  pose proof (date_filter_world i bounds wa) as Hw. fold wc0 in Hw.
  destruct (date_filter i bounds wa) as [[range|e] wc] eqn:Hf; simpl in Hw;
    subst wc; [|reflexivity].
  simpl fst. cbv iota.
  destruct (price_chart wc0) as [[[]|e] wd]; [|reflexivity].
  pose proof (dividends_section_price_charts (fst range) (snd range) wd) as Hd.
  destruct (dividends_section (fst range) (snd range) wd) as [[[]|e] we];
    exact Hd.
Qed.

(** C6: two reruns from the same world that differ only in what the user
    put into the two date widgets, and that both get past those widgets,
    show the same price charts; and the price chart of a rerun that
    completes on a non-empty price cache is the one chart holding, for every
    cached ticker, every point of its history. *)
Theorem price_chart_ignores_date_filter (i1 i2 : Interaction) (w : World) :
  selected_tickers i1 = selected_tickers i2 ->
  button i1 = button i2 ->
  today i1 = today i2 ->
  history i1 = history i2 ->
  fst (script i1 w) <> Raise StreamlitAPIException ->
  fst (script i2 w) <> Raise StreamlitAPIException ->
  price_charts (page (snd (script i1 w))) = price_charts (page (snd (script i2 w))) /\
  (forall range data,
      fst (script i1 w) = Ok range ->
      fund_data (snd (script_head i1 w)) = Some data -> data <> [] ->
      price_charts (page (snd (script i1 w))) = [st_plotly_chart (fig data)] /\
      forall ticker hist,
        In (ticker, hist) data ->
        In (Scatter (hist_index hist) (map h_Close (hist_rows hist)) "lines" ticker)
           (traces (fig data))).
Proof.
  intros Hs Hb Ht Hh Hok1 Hok2.
  assert (Hhead : script_head i1 w = script_head i2 w)
    by (now apply script_head_ext).
  pose proof (script_head_Ok i1 w) as H1.
  set (wa := snd (script_head i1 w)) in *.
  assert (H2 : script_head i2 w = (Ok (), wa)) by (now rewrite <- Hhead).
  assert (Hpre : price_charts (page wa) = []).
  { subst wa. unfold script_head, fetch_trigger, fetch_yieldmax_data.
    unfold_M. unfold clear_page, render, init_session_state, set_cache.
    destruct (button i1); [|reflexivity].
    match goal with |- context [fetch_loop ?h ?n ?t ?d ?v ?w0] =>
      destruct (fetch_loop_spec h t n d v w0) as (data & dividends & new & -> & _)
    end.
    reflexivity. }
  rewrite (script_unfold i1 w wa H1) in *. rewrite (script_unfold i2 w wa H2) in *.
  rewrite <- Ht in *.
  destruct (fst (resolve_date_range (today i1) wa)) as [bounds|e].
  2:{ split; [reflexivity|]. intros range data [=]. }
  clear Hok1 Hok2.
  rewrite (past_date_filter_price_charts i1 bounds wa _ eq_refl).
  rewrite (past_date_filter_price_charts i2 bounds wa _ eq_refl).
  destruct (date_filter_cases bounds wa) as [(e & _ & Hraise)|Hpass].
  - rewrite (Hraise i1), (Hraise i2). split; [reflexivity|].
    intros range data Hok. exfalso.
    pose proof (Hraise i1) as Hr.
    destruct (date_filter i1 bounds wa) as [[r|e'] wc]; simpl in Hr;
      discriminate.
  - destruct (Hpass i1) as [r1 ->]. destruct (Hpass i2) as [r2 ->].
    split; [reflexivity|].
    intros range data _ Hdata Hne. split.
    2:{ intros ticker hist Hin. simpl.
        apply (List.in_map price_trace) in Hin. exact Hin. }
    rewrite price_chart_world. simpl. rewrite Hdata.
    destruct data as [|entry data']; [congruence|].
    rewrite !price_charts_app, Hpre. reflexivity.
Qed.

(** After the scenario's fetch, two different ranges show the same price
    chart. *)
Lemma price_chart_ignores_date_filter_scenario :
  price_charts (page (snd (script reversed_interaction
                             (snd (script scenario_interaction session_start)))))
  = price_charts (page (snd (script narrow_interaction
                               (snd (script scenario_interaction session_start))))).
Proof.
  apply (price_chart_ignores_date_filter reversed_interaction narrow_interaction
           (snd (script scenario_interaction session_start))).
  - reflexivity.
  - reflexivity.
  - reflexivity.
  - reflexivity.
  - vm_compute. discriminate.
  - vm_compute. discriminate.
Defined.

(** ** The pivot on distinct dates *)

Section NoDupFacts.
Context {A B C : Type}.

Lemma NoDup_map_filter (f : A -> B) (P : A -> bool) (l : list A) :
  List.NoDup (map f l) -> List.NoDup (map f (List.filter P l)).
Proof.
  induction l as [|x rest IH]; simpl; intros Hnd; [constructor|].
  inversion Hnd as [|? ? Hx Hrest]; subst.
  destruct (P x); simpl; [|now apply IH].
  constructor; [|now apply IH].
  intros [y [Hy Hin]]%List.in_map_iff. apply Hx.
  apply List.in_map_iff. exists y. split; [exact Hy|].
  now apply List.filter_In in Hin as [Hin _].
Qed.

(** [g] separates the elements of [l] at least as well as [f] does. *)
Lemma NoDup_map_finer (f : A -> B) (g : A -> C) (l : list A) :
  (forall x y, In x l -> In y l -> g x = g y -> f x = f y) ->
  List.NoDup (map f l) -> List.NoDup (map g l).
Proof.
  induction l as [|x rest IH]; simpl; intros Hfg Hnd; [constructor|].
  inversion Hnd as [|? ? Hx Hrest]; subst.
  constructor; [|apply IH; auto].
  intros [y [Hy Hin]]%List.in_map_iff. apply Hx.
  apply List.in_map_iff. exists y. split; [|exact Hin].
  apply Hfg; auto.
Qed.
End NoDupFacts.

Lemma uniform_tz_same (col : list Timestamp) (a b : Timestamp) :
  uniform_tz col = true -> In a col -> In b col -> tz a = tz b.
Proof.
  destruct col as [|t rest]; [intros _ []|]. simpl. intros Hall.
  rewrite List.forallb_forall in Hall.
  assert (Ht : forall u, In u (t :: rest) -> tz u = tz t).
  { intros u [<-|Hu]; [reflexivity|].
    specialize (Hall u Hu). now apply bool_decide_eq_true in Hall. }
  intros Ha Hb. now rewrite (Ht a Ha), (Ht b Hb).
Qed.

Lemma tz_localize_None_inj (a b : Timestamp) :
  tz a = tz b -> tz_localize_None a = tz_localize_None b -> a = b.
Proof. destruct a, b; simpl. intros -> [= ->]. reflexivity. Qed.

Lemma lookup_repeat (ticker : string) (n i : nat) :
  (i < n)%nat -> repeat ticker n !! i = Some ticker.
Proof.
  revert i. induction n as [|n IH]; intros i Hi; [lia|].
  destruct i as [|i]; simpl; [reflexivity|]. apply IH. lia.
Qed.

Lemma imap_rows_tagged (g : nat -> option string) (ticker : string)
    (rows : list DivRow) :
  (forall i, (i < length rows)%nat -> g i = Some ticker) ->
  imap (fun i r => {| Ticker := g i; Date := r_Date r;
                      Dividends := r_Dividends r |}) rows
  = map (fun r => {| Ticker := Some ticker; Date := r_Date r;
                     Dividends := r_Dividends r |}) rows.
Proof.
  revert g. induction rows as [|r rest IH]; intros g Hg; simpl; [reflexivity|].
  rewrite (Hg 0%nat) by (simpl; lia). f_equal.
  apply (IH (g ∘ S)). intros i Hi. apply Hg. simpl. lia.
Qed.

(** The long-form rows of a table tagged by line 90. *)
Lemma frame_rows_set_Ticker (ticker : string) (f : DivFrame) :
  frame_rows (set_Ticker ticker f)
  = map (fun r => {| Ticker := Some ticker; Date := r_Date r;
                     Dividends := r_Dividends r |}) (df_rows f).
Proof.
  unfold frame_rows, set_Ticker; simpl.
  apply (imap_rows_tagged (fun i => repeat ticker (length (df_rows f)) !! i)).
  intros i Hi. now apply lookup_repeat.
Qed.

(** Tables tagged with pairwise distinct keys, each with pairwise distinct
    dates, concatenate to rows with pairwise distinct (Ticker, Date). *)
Lemma tagged_rows_NoDup (items : list (string * DivFrame)) :
  List.NoDup (map fst items) ->
  (forall ticker f, In (ticker, f) items -> List.NoDup (map r_Date (df_rows f))) ->
  List.NoDup (map (fun r => (Ticker r, Date r))
                  (flat_map (fun e => frame_rows (set_Ticker (fst e) (snd e))) items)).
Proof.
  induction items as [|[ticker f] rest IH]; simpl; intros Hk Hd; [constructor|].
  inversion Hk as [|? ? Hfresh Hrest]; subst.
  rewrite List.map_app. apply NoDup_ListNoDup, NoDup_app. split; [|split].
  - apply NoDup_ListNoDup. rewrite frame_rows_set_Ticker, List.map_map. simpl.
    apply (NoDup_map_finer r_Date); [|eapply Hd; now left].
    now intros x y _ _ [= ->].
  - intros [t d] Hin1 Hin2.
    apply list_elem_of_In in Hin1, Hin2.
    rewrite frame_rows_set_Ticker, List.map_map in Hin1. simpl in Hin1.
    apply List.in_map_iff in Hin1 as [r [[= <- <-] _]].
    apply List.in_map_iff in Hin2 as [r' [Hkey Hin2]].
    apply List.in_flat_map in Hin2 as [[ticker' f'] [Hin' Hr']].
    simpl in Hr'. rewrite frame_rows_set_Ticker in Hr'.
    apply List.in_map_iff in Hr' as [r'' [<- _]]. simpl in Hkey.
    injection Hkey as -> _. apply Hfresh.
    apply List.in_map_iff. now exists (ticker, f').
  - apply NoDup_ListNoDup, IH; [exact Hrest|].
    intros ticker' f' Hin. eapply Hd. right. exact Hin.
Qed.

Lemma NoDup_fst_combine {A B : Type} (ks : list A) (fs : list B) :
  List.NoDup ks -> List.NoDup (map fst (combine ks fs)).
Proof.
  revert fs. induction ks as [|k ks IH]; intros fs Hnd; simpl; [constructor|].
  destruct fs as [|f fs]; simpl; [constructor|].
  inversion Hnd as [|? ? Hk Hks]; subst.
  constructor; [|now apply IH].
  intros [[k' f'] [Hk' Hin]]%List.in_map_iff. simpl in Hk'; subst k'.
  apply Hk. eapply List.in_combine_l, Hin.
Qed.

Lemma flat_map_map {A B C : Type} (g : A -> B) (h : B -> list C) (l : list A) :
  flat_map h (map g l) = flat_map (fun x => h (g x)) l.
Proof. induction l as [|x l IH]; simpl; [reflexivity|]. now rewrite IH. Qed.

Lemma Forall2_In_l {A B : Type} (P : A -> B -> Prop) (l : list A) (k : list B) (x : A) :
  Forall2 P l k -> In x l -> exists y, In y k /\ P x y.
Proof.
  induction 1 as [|a b l k Hab Hlk IH]; [intros []|].
  intros [<-|Hin]; [exists b; split; [now left|exact Hab]|].
  destruct (IH Hin) as (y & Hy & HP). exists y. split; [now right|exact HP].
Qed.

Lemma refers_to_tagged (w w' : World) (items : list (string * nat))
    (frames : list DivFrame) :
  Forall2 (fun l f => heap w !! l = Some f) (map snd items) frames ->
  (forall ticker l f, In (ticker, l) items -> heap w !! l = Some f ->
                      heap w' !! l = Some (set_Ticker ticker f)) ->
  Forall2 (fun l f => heap w' !! l = Some f) (map snd items)
          (map (fun e => set_Ticker (fst e) (snd e)) (combine (map fst items) frames)).
Proof.
  revert frames. induction items as [|[ticker l] rest IH]; intros frames Hrefs Htag;
    simpl in *.
  - inversion Hrefs; subst. constructor.
  - inversion Hrefs as [|? f ? fs Hl Hrest]; subst. simpl.
    constructor; [now apply (Htag ticker l f); [left|]|].
    apply IH; [exact Hrest|]. intros t0 l0 f0 Hin. apply Htag. now right.
Qed.

(** After the tagging loop the references of the cache point to the tagged
    tables. *)
Lemma tag_all_tagged (cache : dict nat) (frames : list DivFrame) (w : World) :
  refers_to w cache frames ->
  List.NoDup (values cache) ->
  exists w',
    tag_all cache w = (Ok (values cache), w') /\
    deref_all (values cache) w' = (Ok (tagged cache frames), w').
Proof.
  intros Hrefs Hnd.
  destruct (tag_all_Ok cache w Hnd) as (w' & Hrun & Htag).
  { intros l Hl. destruct (Forall2_In_l _ _ _ _ Hrefs Hl) as (f & _ & Hf).
    now exists f. }
  exists w'. split; [exact Hrun|].
  pose proof (refers_to_tagged w w' cache frames Hrefs Htag) as Hrefs'.
  clear -Hrefs'. unfold tagged, keys. unfold values in *.
  revert Hrefs'. generalize (map (fun e => set_Ticker (fst e) (snd e))
                                 (combine (map fst cache) frames)).
  generalize (map snd cache). intros refs fs Hall.
  induction Hall as [|l f refs fs Hl Hall IH]; simpl; [reflexivity|].
  unfold_M. unfold deref at 1. now rewrite Hl, IH.
Qed.

(** The rows the pivot receives have pairwise distinct (Ticker, Date). *)
Lemma filtered_rows_NoDup (cache : dict nat) (frames : list DivFrame)
    (start_date end_date : Z) (combined localized : list LongRow) :
  List.NoDup (keys cache) ->
  Forall (fun f => List.NoDup (map r_Date (df_rows f))) frames ->
  concat (tagged cache frames) = Ok combined ->
  localize_Date combined = Ok localized ->
  NoDup (map (fun r => (Ticker r, Date r))
             (filter_range start_date end_date localized)).
Proof.
  intros Hk Hd Hc Hl. apply NoDup_ListNoDup, NoDup_map_filter.
  apply localize_Date_Ok in Hl as [Htz ->].
  rewrite List.map_map. simpl.
  assert (Hrows : combined = flat_map frame_rows (tagged cache frames)).
  { destruct (tagged cache frames); [discriminate|]. now injection Hc as <-. }
  apply (NoDup_map_finer (fun r => (Ticker r, Date r))).
  - intros x y Hx Hy [= Ht Hdate]. f_equal; [exact Ht|].
    apply tz_localize_None_inj; [|unfold tz_localize_None; now rewrite Hdate].
    apply (uniform_tz_same _ _ _ Htz); now apply List.in_map.
  - rewrite Hrows. unfold tagged. rewrite flat_map_map.
    apply tagged_rows_NoDup; [now apply NoDup_fst_combine|].
    intros ticker f Hin. rewrite List.Forall_forall in Hd.
    eapply Hd, List.in_combine_r, Hin.
Qed.

Lemma pivot_NoDup (rows : list LongRow) :
  NoDup (map (fun r => (Ticker r, Date r)) rows) -> exists p, pivot rows = Ok p.
Proof.
  intros Hnd. unfold pivot. destruct (decide _); [eauto|contradiction].
Qed.

(** On a cache whose keys, objects and, within each table, dates are
    pairwise distinct, the table builder never raises the duplicate-entry
    error of [pivot]; whenever lines 94-96 go through on the tagged tables,
    [pivot] returns a table and the builder shows it after the column
    drop. *)
Lemma dividend_table_distinct_dates (w : World) (cache : dict nat)
    (frames : list DivFrame) (start_date end_date : Z) :
  refers_to w cache frames ->
  List.NoDup (keys cache) ->
  List.NoDup (values cache) ->
  Forall (fun f => List.NoDup (map r_Date (df_rows f))) frames ->
  fst (dividend_table cache start_date end_date w)
    <> Raise ValueError_duplicate_entries /\
  forall combined localized,
    concat (tagged cache frames) = Ok combined ->
    localize_Date combined = Ok localized ->
    exists pivoted,
      pivot (filter_range start_date end_date localized) = Ok pivoted /\
      fst (dividend_table cache start_date end_date w)
      = Ok (Some (drop_columns pivoted)).
Proof.
  intros Hrefs Hk Hv Hd.
  unfold dividend_table. unfold_M. unfold render.
  set (w0 := {| fund_data := fund_data w; fund_dividends := fund_dividends w;
                heap := heap w;
                page := page w ++ [st_subheader "Dividends Paid for All Selected Funds"] |}).
  destruct (tag_all_tagged cache frames w0 Hrefs Hv) as (w1 & Hrun & Hderef).
  rewrite Hrun.
  destruct (values cache) as [|l refs] eqn:Hvals.
  { assert (Hempty : tagged cache frames = []).
    { unfold refers_to in Hrefs. rewrite Hvals in Hrefs. inversion Hrefs; subst.
      unfold tagged. now rewrite List.combine_nil. }
    split; [discriminate|]. intros combined localized Hc. rewrite Hempty in Hc.
    discriminate. }
  rewrite Hderef. unfold pivoted_dividends, mbind, Result_bind, mret, Result_ret.
  destruct (concat (tagged cache frames)) as [combined|ex] eqn:Hc.
  2:{ split; [|intros ? ? [=]]. simpl.
      unfold concat in Hc. destruct (tagged cache frames); [|discriminate].
      injection Hc as <-. discriminate. }
  destruct (localize_Date combined) as [localized|ex] eqn:Hl.
  2:{ split.
      - simpl. unfold localize_Date in Hl.
        destruct (uniform_tz _); [discriminate|]. injection Hl as <-. discriminate.
      - intros combined' localized' [= <-] Hl'. congruence. }
  destruct (pivot_NoDup _ (filtered_rows_NoDup cache frames start_date end_date
                             combined localized Hk Hd Hc Hl)) as [pivoted Hp].
  rewrite Hp. simpl. split; [discriminate|].
  intros combined' localized' [= <-] Hl'.
  rewrite Hl in Hl'. injection Hl' as <-. eauto.
Qed.

(** ** The cache invariant of a session *)

Lemma lookup_same_rows (h h' : list DivFrame) (l : nat) (f : DivFrame) :
  map df_rows h' = map df_rows h -> h !! l = Some f ->
  exists f', h' !! l = Some f' /\ df_rows f' = df_rows f.
Proof.
  intros Hrows Hl.
  assert (H : (df_rows <$> h') !! l = Some (df_rows f)).
  { change (df_rows <$> h') with (map df_rows h'). rewrite Hrows.
    change (map df_rows h) with (df_rows <$> h).
    now rewrite list_lookup_fmap, Hl. }
  rewrite list_lookup_fmap in H. destruct (h' !! l) as [f'|]; [|discriminate].
  injection H as H. eauto.
Qed.

Lemma well_formed_cache_ext (w w' : World) :
  fund_dividends w' = fund_dividends w ->
  map df_rows (heap w') = map df_rows (heap w) ->
  well_formed_cache w -> well_formed_cache w'.
Proof.
  intros Hc Hrows Hwf cache Hcache. rewrite Hc in Hcache.
  destruct (Hwf cache Hcache) as (Hk & Hv & Hlive).
  split; [exact Hk|]. split; [exact Hv|].
  intros l Hl. destruct (Hlive l Hl) as (f & Hf & Hnaive).
  destruct (lookup_same_rows _ _ _ _ Hrows Hf) as (f' & Hf' & Heq).
  exists f'. split; [exact Hf'|]. now rewrite Heq.
Qed.

Lemma fetch_trigger_well_formed (i : Interaction) (w : World) :
  well_formed_cache w -> well_formed_cache (snd (fetch_trigger i w)).
Proof.
  intros Hwf. unfold fetch_trigger. destruct (button i); [|exact Hwf].
  unfold_M. unfold render, fetch_yieldmax_data.
  match goal with |- context [fetch_loop ?h ?n ?t ?d ?v ?w0] =>
    destruct (fetch_loop_spec h t n d v w0)
      as (data & dividends & new & -> & Hnorm & _ & Hk & Hv)
  end.
  unfold set_cache. simpl. intros cache [= <-].
  split; [apply Hk; constructor|].
  destruct Hv as [Hlt Hnd]; [constructor|constructor|].
  split; [exact Hnd|].
  intros l [[ticker l'] [Hl Hin]]%List.in_map_iff. simpl in Hl; subst l'.
  destruct (Hnorm ticker l Hin) as [[]|[k Hk']]. simpl in Hk'.
  eexists. split; [exact Hk'|].
  eapply List.Forall_impl; [|apply normalize_dividends_rows]. now intros r [_ H].
Qed.

Lemma script_head_well_formed (i : Interaction) (w : World) :
  well_formed_cache w -> well_formed_cache (snd (script_head i w)).
Proof.
  intros Hwf. unfold script_head. unfold_M.
  unfold clear_page, render, init_session_state.
  match goal with |- context [fetch_trigger i ?w0] =>
    assert (Hwf0 : well_formed_cache w0)
  end.
  { intros cache Hcache. simpl in Hcache.
    destruct (fund_dividends w) as [cache'|] eqn:Hc; simpl in Hcache.
    - injection Hcache as <-. apply (Hwf cache' Hc).
    - injection Hcache as <-. repeat split; try constructor. intros l []. }
  match goal with |- context [fetch_trigger i ?w0] =>
    pose proof (fetch_trigger_well_formed i w0 Hwf0) as H;
    destruct (fetch_trigger i w0) as [[[]|e] w1]; exact H
  end.
Qed.

Lemma dividends_section_well_formed (start_date end_date : Z) (w : World) :
  well_formed_cache w ->
  well_formed_cache (snd (dividends_section start_date end_date w)).
Proof.
  intros Hwf. unfold dividends_section, get_fund_dividends. unfold_M.
  destruct (fund_dividends w) as [cache|] eqn:Hc; [|exact Hwf].
  destruct (truthy cache).
  2:{ unfold render; simpl. eapply well_formed_cache_ext; [| |exact Hwf]; auto. }
  destruct (dividend_table_world cache start_date end_date w)
    as (_ & Hfd & Hh & _).
  match type of Hh with _ = heap (snd (tag_all cache ?w0)) =>
    destruct (tag_all_frame cache w0) as (_ & _ & _ & Hrows & _)
  end.
  rewrite <- Hh in Hrows. simpl in Hrows.
  assert (Hwf1 : well_formed_cache (snd (dividend_table cache start_date end_date w)))
    by (eapply well_formed_cache_ext; [exact Hfd|exact Hrows|exact Hwf]).
  destruct (dividend_table cache start_date end_date w) as [[[pivoted|]|e] w1];
    simpl in Hwf1; [rewrite dividend_chart_world|unfold render|]; simpl;
    try exact Hwf1;
    (eapply well_formed_cache_ext; [| |exact Hwf1]; reflexivity).
Qed.

(** Every step of a rerun keeps the invariant, so it holds wherever the
    rerun stops. *)
Lemma script_well_formed (i : Interaction) (w : World) :
  well_formed_cache w -> well_formed_cache (snd (script i w)).
Proof.
  intros Hwf. apply (script_head_well_formed i) in Hwf.
  rewrite (script_unfold i w _ (script_head_Ok i w)).
  set (wa := snd (script_head i w)) in *.
  destruct (fst (resolve_date_range (today i) wa)) as [bounds|e]; [|exact Hwf].
  pose proof (date_filter_world i bounds wa) as Hwc.
  destruct (date_filter i bounds wa) as [[range|e] wc]; simpl in Hwc;
    (assert (Hwfc : well_formed_cache wc)
      by (subst wc; eapply well_formed_cache_ext; [| |exact Hwf]; reflexivity));
    [|exact Hwfc].
  pose proof (price_chart_world wc) as Hwd.
  destruct (price_chart wc) as [[[]|e] wd]; simpl in Hwd;
    (assert (Hwfd : well_formed_cache wd)
      by (subst wd; eapply well_formed_cache_ext; [| |exact Hwfc]; reflexivity));
    [|exact Hwfd].
  pose proof (dividends_section_well_formed (fst range) (snd range) wd Hwfd) as Hwe.
  destruct (dividends_section (fst range) (snd range) wd) as [[[]|e] we];
    exact Hwe.
Qed.

Lemma reachable_well_formed (w : World) : reachable w -> well_formed_cache w.
Proof.
  induction 1 as [|w i Hreach IH]; [intros cache [=]|].
  now apply script_well_formed.
Qed.

Lemma Forall2_In_r {A B : Type} (P : A -> B -> Prop) (l : list A) (k : list B) (y : B) :
  Forall2 P l k -> In y k -> exists x, In x l /\ P x y.
Proof.
  induction 1 as [|a b l k Hab Hlk IH]; [intros []|].
  intros [<-|Hin]; [exists a; split; [now left|exact Hab]|].
  destruct (IH Hin) as (x & Hx & HP). exists x. split; [now right|exact HP].
Qed.

Lemma tagged_rows_naive (cache : dict nat) (frames : list DivFrame) :
  Forall (fun f => Forall (fun r => tz (r_Date r) = None) (df_rows f)) frames ->
  Forall (fun r => tz (Date r) = None) (flat_map frame_rows (tagged cache frames)).
Proof.
  intros Hnaive. apply List.Forall_forall. intros r Hr.
  unfold tagged in Hr. rewrite flat_map_map in Hr.
  apply List.in_flat_map in Hr as [[ticker f] [Hin Hr]]. simpl in Hr.
  rewrite frame_rows_set_Ticker in Hr.
  apply List.in_map_iff in Hr as [row [<- Hrow]]. simpl.
  apply List.in_combine_r in Hin.
  rewrite List.Forall_forall in Hnaive. specialize (Hnaive f Hin).
  rewrite List.Forall_forall in Hnaive. now apply Hnaive.
Qed.

(** C10: in a world of a session, on a non-empty dividend cache in which the
    dates of each ticker's table are pairwise distinct, lines 94-96 go
    through, [pivot] returns a table instead of raising its duplicate-entry
    error, and the table builder returns that table after the column drop. *)
Theorem pivot_succeeds_on_distinct_dates (w : World) (cache : dict nat)
    (start_date end_date : Z) :
  well_formed_cache w ->
  fund_dividends w = Some cache ->
  cache <> [] ->
  distinct_dates w cache ->
  exists frames combined pivoted,
    refers_to w cache frames /\
    concat (tagged cache frames) = Ok combined /\
    localize_Date combined = Ok combined /\
    pivot (filter_range start_date end_date combined) = Ok pivoted /\
    fst (dividend_table cache start_date end_date w)
    = Ok (Some (drop_columns pivoted)).
Proof.
  intros Hwf Hc Hne Hdist.
  destruct (Hwf cache Hc) as (Hk & Hv & Hlive).
  destruct (deref_all_Ok _ (values cache) w Hlive) as (frames & _ & Hrefs & Hnaive).
  assert (Hd : Forall (fun f => List.NoDup (map r_Date (df_rows f))) frames).
  { apply List.Forall_forall. intros f Hf.
    destruct (Forall2_In_r _ _ _ _ Hrefs Hf) as (l & Hl & Hlf).
    now apply (Hdist l f). }
  assert (Hcat : concat (tagged cache frames)
                 = Ok (flat_map frame_rows (tagged cache frames))).
  { destruct cache as [|[ticker l] cache']; [congruence|].
    inversion Hrefs; subst. reflexivity. }
  assert (Hloc : localize_Date (flat_map frame_rows (tagged cache frames))
                 = Ok (flat_map frame_rows (tagged cache frames))).
  { now apply localize_Date_naive, tagged_rows_naive. }
  destruct (dividend_table_distinct_dates w cache frames start_date end_date
              Hrefs Hk Hv Hd) as [_ Hpivot].
  destruct (Hpivot _ _ Hcat Hloc) as (pivoted & Hp & Hrun).
  exists frames, (flat_map frame_rows (tagged cache frames)), pivoted.
  auto.
Qed.

(** The scenario: the table of the specification is what the builder
    returns right after the fetch. *)
Lemma pivot_succeeds_on_distinct_dates_scenario :
  exists frames combined pivoted,
    refers_to fetched_world scenario_cache frames /\
    concat (tagged scenario_cache frames) = Ok combined /\
    localize_Date combined = Ok combined /\
    pivot (filter_range day_2023_01_01 day_2023_02_01 combined) = Ok pivoted /\
    fst (dividend_table scenario_cache day_2023_01_01 day_2023_02_01 fetched_world)
    = Ok (Some (drop_columns pivoted)).
Proof.
  apply (pivot_succeeds_on_distinct_dates fetched_world scenario_cache).
  - intros cache [= <-]. split; [|split].
    + apply NoDup_ListNoDup, (bool_decide_unpack _). vm_compute. exact I.
    + apply NoDup_ListNoDup, (bool_decide_unpack _). vm_compute. exact I.
    + intros l [<-|[<-|[]]]; eexists; (split; [reflexivity|]);
        repeat constructor.
  - reflexivity.
  - discriminate.
  - intros l f [<-|[<-|[]]] [= <-]; apply NoDup_ListNoDup;
      apply (bool_decide_unpack _); vm_compute; exact I.
Defined.

(** ** The duplicate-entry error in a whole rerun *)

Lemma deref_all_Raise (refs : list nat) (w : World) (e : Exception) :
  fst (deref_all refs w) = Raise e -> e = dangling_reference.
Proof.
  induction refs as [|l rest IH]; simpl; [discriminate|].
  unfold_M. unfold deref at 1.
  destruct (heap w !! l) as [f|]; [|now intros [= <-]].
  destruct (deref_all rest w) as [[fs|e'] w']; simpl in *; [discriminate|].
  intros [= <-]. now apply IH.
Qed.

Lemma resolve_date_range_no_duplicate_error (today : Z) (w : World) :
  fst (resolve_date_range today w) <> Raise ValueError_duplicate_entries.
Proof.
  unfold resolve_date_range, get_fund_dividends. unfold_M.
  destruct (fund_dividends w) as [cache|]; [|discriminate].
  destruct (truthy cache); [|discriminate].
  pose proof (deref_all_Raise (values cache) w) as Hraise.
  destruct (deref_all (values cache) w) as [[frames|e] w']; simpl in *.
  2:{ intros [= ->]. specialize (Hraise _ eq_refl). discriminate. }
  destruct frames as [|f fs]; [discriminate|]. simpl.
  unfold localize_Date. destruct (uniform_tz _); discriminate.
Qed.

Lemma price_chart_no_duplicate_error (w : World) :
  fst (price_chart w) <> Raise ValueError_duplicate_entries.
Proof.
  unfold price_chart, get_fund_data. unfold_M. unfold render.
  destruct (fund_data w) as [data|]; [|discriminate].
  destruct (truthy data); discriminate.
Qed.

Lemma well_formed_refers_to (w : World) (cache : dict nat) :
  well_formed_cache w -> fund_dividends w = Some cache ->
  distinct_dates w cache ->
  exists frames,
    refers_to w cache frames /\
    Forall (fun f => List.NoDup (map r_Date (df_rows f))) frames.
Proof.
  intros Hwf Hc Hdist. destruct (Hwf cache Hc) as (_ & _ & Hlive).
  destruct (deref_all_Ok _ (values cache) w Hlive) as (frames & _ & Hrefs & _).
  exists frames. split; [exact Hrefs|].
  apply List.Forall_forall. intros f Hf.
  destruct (Forall2_In_r _ _ _ _ Hrefs Hf) as (l & Hl & Hlf).
  now apply (Hdist l f).
Qed.

Lemma dividends_section_no_duplicate_error (start_date end_date : Z) (w : World)
    (cache : dict nat) :
  well_formed_cache w -> fund_dividends w = Some cache ->
  distinct_dates w cache ->
  fst (dividends_section start_date end_date w)
    <> Raise ValueError_duplicate_entries.
Proof.
  intros Hwf Hc Hdist.
  destruct (well_formed_refers_to w cache Hwf Hc Hdist) as (frames & Hrefs & Hd).
  destruct (Hwf cache Hc) as (Hk & Hv & _).
  destruct (dividend_table_distinct_dates w cache frames start_date end_date
              Hrefs Hk Hv Hd) as [Hno _].
  unfold dividends_section, get_fund_dividends. unfold_M. rewrite Hc.
  destruct (truthy cache); [|discriminate].
  destruct (dividend_table cache start_date end_date w) as [[[pivoted|]|e] w1];
    simpl in Hno.
  - now rewrite dividend_chart_world.
  - discriminate.
  - simpl. congruence.
Qed.

(** From any world of a session, a rerun whose dividend cache (as it stands
    after the fetch-trigger branch) has pairwise distinct dates within each
    table never ends in the duplicate-entry error of [pivot]. *)
Lemma script_no_duplicate_error (i : Interaction) (w : World) :
  reachable w ->
  (forall cache,
      fund_dividends (snd (script_head i w)) = Some cache ->
      distinct_dates (snd (script_head i w)) cache) ->
  fst (script i w) <> Raise ValueError_duplicate_entries.
Proof.
  intros Hreach Hdist.
  pose proof (script_head_well_formed i w (reachable_well_formed w Hreach)) as Hwf.
  rewrite (script_unfold i w _ (script_head_Ok i w)).
  set (wa := snd (script_head i w)) in *.
  pose proof (resolve_date_range_no_duplicate_error (today i) wa) as Hres.
  destruct (fst (resolve_date_range (today i) wa)) as [bounds|e];
    [|simpl; congruence].
  pose proof (date_filter_world i bounds wa) as Hwc.
  destruct (date_filter i bounds wa) as [[range|e] wc] eqn:Hf; simpl in Hwc.
  2:{ apply date_filter_Raise in Hf as [->| ->]; discriminate. }
  pose proof (price_chart_world wc) as Hwd.
  pose proof (price_chart_no_duplicate_error wc) as Hpc.
  destruct (price_chart wc) as [[[]|e] wd]; simpl in Hwd, Hpc;
    [|simpl; congruence].
  assert (Hsame : fund_dividends wd = fund_dividends wa /\ heap wd = heap wa)
    by (subst wd wc; split; reflexivity).
  destruct Hsame as [Hfd Hheap].
  assert (Hwfd : well_formed_cache wd).
  { eapply well_formed_cache_ext; [exact Hfd|now rewrite Hheap|exact Hwf]. }
  destruct (fund_dividends wd) as [cache|] eqn:Hc.
  - assert (Hdd : distinct_dates wd cache).
    { intros l f Hl Hlf. rewrite Hheap in Hlf.
      now apply (Hdist cache (eq_sym Hfd) l f). }
    pose proof (dividends_section_no_duplicate_error (fst range) (snd range)
                  wd cache Hwfd Hc Hdd) as Hds.
    destruct (dividends_section (fst range) (snd range) wd) as [[[]|e] we];
      simpl in *; congruence.
  - unfold dividends_section, get_fund_dividends. unfold_M. rewrite Hc.
    discriminate.
Qed.

(** * Further properties of the script *)

(** ** What the fetch returns (lines 26-38) *)

Lemma dict_set_fresh {V : Type} (k : string) (v : V) (d : dict V) :
  ~ In k (keys d) -> dict_set k v d = d ++ [(k, v)].
Proof.
  unfold keys. induction d as [|[k0 v0] rest IH]; simpl; intros Hk; [reflexivity|].
  destruct (decide (k = k0)) as [->|Hne]; [tauto|].
  rewrite IH by tauto. reflexivity.
Qed.

Lemma keys_app {V : Type} (d1 d2 : dict V) : keys (d1 ++ d2) = keys d1 ++ keys d2.
Proof. apply List.map_app. Qed.

Lemma keys_dict_set_eq {V V' : Type} (k : string) (v : V) (v' : V')
    (d : dict V) (d' : dict V') :
  keys d = keys d' -> keys (dict_set k v d) = keys (dict_set k v' d').
Proof.
  unfold keys. revert d'. induction d as [|[k0 v0] rest IH]; intros [|[k1 v1] rest'];
    simpl; try discriminate; [reflexivity|].
  intros [= -> Hrest].
  destruct (decide (k = k1)); simpl; [now rewrite Hrest|].
  now rewrite (IH rest' Hrest).
Qed.

(** The loop on pairwise distinct, not yet cached tickers, in closed form. *)
Lemma fetch_loop_distinct (history : nat -> string -> HistFrame)
    (tickers : list string) :
  forall (n : nat) (data : dict HistFrame) (dividends : dict nat) (w : World),
    List.NoDup tickers ->
    (forall t, In t tickers -> ~ In t (keys data) /\ ~ In t (keys dividends)) ->
    fetch_loop history n tickers data dividends w
    = (Ok (data ++ imap (fun i t => (t, history (n + 2 * i)%nat t)) tickers,
           dividends ++ imap (fun i t => (t, (length (heap w) + i)%nat)) tickers),
       {| fund_data := fund_data w; fund_dividends := fund_dividends w;
          heap := heap w ++
                  imap (fun i t => normalize_dividends (history (S (n + 2 * i)) t))
                       tickers;
          page := page w |}).
Proof.
  induction tickers as [|ticker rest IH]; intros n data dividends w Hnd Hfresh.
  - simpl. rewrite !app_nil_r. destruct w; reflexivity.
  - inversion Hnd as [|? ? Hticker Hrest]; subst.
    destruct (Hfresh ticker (or_introl eq_refl)) as [Hd Hv].
    simpl fetch_loop. unfold_M. unfold alloc at 1.
    rewrite (dict_set_fresh _ _ data Hd), (dict_set_fresh _ _ dividends Hv).
    rewrite IH; [|exact Hrest|].
    2:{ intros t Ht. rewrite !keys_app. simpl.
        destruct (Hfresh t (or_intror Ht)) as [Hd' Hv'].
        split; intros [H|[<-|[]]]%List.in_app_or; tauto. }
    rewrite !imap_cons. cbn [heap]. rewrite length_app. cbn [length].
    rewrite <- !app_assoc. cbn [app].
    rewrite (imap_ext (fun i t => (t, history (S (S n) + 2 * i)%nat t))
               ((fun i t => (t, history (n + 2 * i)%nat t)) ∘ S))
      by (intros i t _; simpl; do 2 f_equal; lia).
    rewrite (imap_ext (fun i t => (t, (length (heap w) + 1 + i)%nat))
               ((fun i t => (t, (length (heap w) + i)%nat)) ∘ S))
      by (intros i t _; simpl; f_equal; lia).
    rewrite (imap_ext (fun i t => normalize_dividends (history (S (S (S n) + 2 * i)) t))
               ((fun i t => normalize_dividends (history (S (n + 2 * i)) t)) ∘ S))
      by (intros i t _; simpl; do 2 f_equal; lia).
    rewrite !Nat.mul_0_r, !Nat.add_0_r. reflexivity.
Qed.

(** X1: for pairwise distinct tickers the fetch returns, in the order of the
    request, the price table of the first call and a reference to a new
    object holding the normalized table of the second call of each ticker;
    nothing else of the world changes. *)
Theorem fetch_yieldmax_data_distinct (history : nat -> string -> HistFrame)
    (tickers : list string) (w : World) :
  List.NoDup tickers ->
  fetch_yieldmax_data history tickers w
  = (Ok (imap (fun i t => (t, history (2 * i)%nat t)) tickers,
         imap (fun i t => (t, (length (heap w) + i)%nat)) tickers),
     {| fund_data := fund_data w; fund_dividends := fund_dividends w;
        heap := heap w ++
                imap (fun i t => normalize_dividends (history (S (2 * i)) t)) tickers;
        page := page w |}).
Proof.
  intros Hnd. unfold fetch_yieldmax_data.
  rewrite (fetch_loop_distinct history tickers 0 [] [] w Hnd)
    by (intros t _; split; intros []).
  reflexivity.
Qed.

(** The scenario's request: two tickers, four calls, two new objects. *)
Lemma fetch_yieldmax_data_distinct_scenario :
  fetch_yieldmax_data (history scenario_interaction) ["TSLY"; "YMAX"]
                      empty_cache_world
  = (Ok ([("TSLY", TSLY_history); ("YMAX", YMAX_history)], scenario_cache),
     {| fund_data := Some []; fund_dividends := Some [];
        heap := [TSLY_fetched; YMAX_fetched]; page := [] |}).
Proof.
  rewrite (fetch_yieldmax_data_distinct (history scenario_interaction)
             ["TSLY"; "YMAX"] empty_cache_world).
  - reflexivity.
  - apply NoDup_ListNoDup, (bool_decide_unpack _). vm_compute. exact I.
Defined.

(** The keys of the two maps the loop builds, for any request. *)
Lemma fetch_loop_keys (history : nat -> string -> HistFrame)
    (tickers : list string) :
  forall (n : nat) (data : dict HistFrame) (dividends : dict nat) (w : World),
    keys data = keys dividends ->
    exists data' dividends' w',
      fetch_loop history n tickers data dividends w = (Ok (data', dividends'), w') /\
      keys data' = keys dividends' /\
      (forall t, In t (keys dividends') <-> In t tickers \/ In t (keys dividends)) /\
      (List.NoDup (keys dividends) -> List.NoDup (keys dividends')).
Proof.
  induction tickers as [|ticker rest IH]; intros n data dividends w Hkeys.
  - exists data, dividends, w. simpl. repeat split; auto; tauto.
  - simpl fetch_loop. unfold_M. unfold alloc at 1.
    match goal with |- context [fetch_loop history ?n' rest ?d ?v ?w1] =>
      destruct (IH n' d v w1) as (data' & dividends' & w' & Hrun & Hk & Hin & Hnd)
    end.
    { now apply keys_dict_set_eq. }
    exists data', dividends', w'. split; [exact Hrun|]. split; [exact Hk|].
    split.
    + intros t. rewrite Hin, In_keys_dict_set. simpl. intuition.
    + intros H. apply Hnd. now apply NoDup_keys_dict_set.
Qed.

(** X2: whatever the request (repeated tickers included), the price map and
    the dividend map the fetch returns have the same keys in the same order,
    each key once, and the keys are exactly the requested tickers. *)
Theorem fetch_yieldmax_data_keys (history : nat -> string -> HistFrame)
    (tickers : list string) (w : World) :
  exists data dividends w',
    fetch_yieldmax_data history tickers w = (Ok (data, dividends), w') /\
    keys data = keys dividends /\
    List.NoDup (keys data) /\
    (forall t, In t (keys data) <-> In t tickers).
Proof.
  unfold fetch_yieldmax_data.
  destruct (fetch_loop_keys history tickers 0 [] [] w eq_refl)
    as (data & dividends & w' & Hrun & Hk & Hin & Hnd).
  exists data, dividends, w'. split; [exact Hrun|]. split; [exact Hk|].
  rewrite Hk. split; [apply Hnd; constructor|].
  intros t. rewrite Hin. simpl. tauto.
Qed.

(** X3: an amount the service reports (anything but a missing value) is
    cached exactly as reported, on the same wall-clock date, and the cached
    table has no [Ticker] column yet. *)
Theorem fetch_keeps_recorded_dividends (history : nat -> string -> HistFrame)
    (tickers : list string) (w : World) :
  exists data dividends w',
    fetch_yieldmax_data history tickers w = (Ok (data, dividends), w') /\
    forall ticker l, In (ticker, l) dividends ->
      exists k divs,
        heap w' !! l = Some divs /\
        df_Ticker divs = None /\
        forall j day,
          hist_rows (history k ticker) !! j = Some day ->
          isna (h_Dividends day) = false ->
          df_rows divs !! j
          = Some {| r_Date := naive (h_wall day); r_Dividends := h_Dividends day |}.
Proof.
  unfold fetch_yieldmax_data.
  destruct (fetch_loop_spec history tickers 0 [] [] w)
    as (data & dividends & new & Hrun & Hnorm & _).
  eexists data, dividends, _. split; [exact Hrun|]. simpl.
  intros ticker l Hin. destruct (Hnorm ticker l Hin) as [[]|[k Hk]].
  exists k, (normalize_dividends (history k ticker)).
  split; [exact Hk|]. split; [reflexivity|].
  intros j day Hj Hna. rewrite (normalize_dividends_lookup _ _ _ Hj).
  destruct (h_Dividends day); try reflexivity. discriminate.
Qed.

(** ** The cache over a whole rerun (lines 41-51 against 53-126) *)

Lemma dividends_section_frame (start_date end_date : Z) (w : World) :
  let w' := snd (dividends_section start_date end_date w) in
  fund_data w' = fund_data w /\
  fund_dividends w' = fund_dividends w /\
  map df_rows (heap w') = map df_rows (heap w).
Proof.
  cbv zeta. unfold dividends_section, get_fund_dividends. unfold_M.
  destruct (fund_dividends w) as [cache|] eqn:Hc; [|simpl; auto].
  destruct (truthy cache); [|unfold render; simpl; auto].
  destruct (dividend_table_world cache start_date end_date w)
    as (Hd & Hfd & Hh & _).
  match type of Hh with _ = heap (snd (tag_all cache ?w0)) =>
    destruct (tag_all_frame cache w0) as (_ & _ & _ & Hrows & _)
  end.
  rewrite <- Hh in Hrows. simpl in Hrows. rewrite Hc in Hfd.
  destruct (dividend_table cache start_date end_date w) as [[[pivoted|]|e] w1];
    simpl in Hd, Hfd, Hrows; rewrite ?dividend_chart_world; unfold render;
    simpl; auto.
Qed.

(** After the fetch-trigger branch a rerun no longer assigns to the two
    session entries and leaves the [Date] and [Dividends] columns of every
    object alone, wherever it stops. *)
Lemma script_frame (i : Interaction) (w : World) :
  fund_data (snd (script i w)) = fund_data (snd (script_head i w)) /\
  fund_dividends (snd (script i w)) = fund_dividends (snd (script_head i w)) /\
  map df_rows (heap (snd (script i w)))
  = map df_rows (heap (snd (script_head i w))).
Proof.
  rewrite (script_unfold i w _ (script_head_Ok i w)).
  set (wa := snd (script_head i w)).
  destruct (fst (resolve_date_range (today i) wa)) as [bounds|e]; [|auto].
  pose proof (date_filter_world i bounds wa) as Hwc.
  destruct (date_filter i bounds wa) as [[range|e] wc]; simpl in Hwc; subst wc;
    [|auto].
  match goal with |- context [price_chart ?w0] =>
    pose proof (price_chart_world w0) as Hwd; destruct (price_chart w0) as [[[]|e] wd]
  end; simpl in Hwd; subst wd; [|auto].
  match goal with |- context [dividends_section ?s ?e ?w0] =>
    pose proof (dividends_section_frame s e w0) as Hwe;
    destruct (dividends_section s e w0) as [[[]|ex] we]
  end; simpl in Hwe; exact Hwe.
Qed.

Lemma script_head_no_button (i : Interaction) (w : World) :
  button i = false ->
  snd (script_head i w)
  = {| fund_data := Some (default [] (fund_data w));
       fund_dividends := Some (default [] (fund_dividends w));
       heap := heap w;
       page := [st_title "YieldMax Funds Dashboard";
                st_write "This application fetches data for all YieldMax funds from inception, plots their value since inception, and displays a table of all dividends paid.";
                st_sidebar_title "Select YieldMax Funds";
                st_sidebar_write "Choose which YieldMax funds to display in the analysis."] |}.
Proof.
  intros Hb. unfold script_head, fetch_trigger. rewrite Hb. reflexivity.
Qed.

(** X4: a rerun in which the button is not pressed keeps the cache, however
    it ends: the two maps are the ones it found (empty ones if the session
    had none), no object is created or dropped, and the [Date] and
    [Dividends] columns of every object are unchanged. *)
Theorem rerun_without_fetch_keeps_cache (i : Interaction) (w : World) :
  button i = false ->
  fund_data (snd (script i w)) = Some (default [] (fund_data w)) /\
  fund_dividends (snd (script i w)) = Some (default [] (fund_dividends w)) /\
  map df_rows (heap (snd (script i w))) = map df_rows (heap w).
Proof.
  intros Hb. destruct (script_frame i w) as (Hd & Hv & Hrows).
  rewrite (script_head_no_button i w Hb) in Hd, Hv, Hrows. auto.
Qed.

(** After the scenario's fetch, a rerun that only moves the date widgets. *)
Lemma rerun_without_fetch_keeps_cache_scenario :
  fund_dividends (snd (script reversed_interaction
                         (snd (script scenario_interaction session_start))))
  = Some scenario_cache /\
  map df_rows (heap (snd (script reversed_interaction
                            (snd (script scenario_interaction session_start)))))
  = [df_rows TSLY_frame; df_rows YMAX_frame].
Proof.
  destruct (rerun_without_fetch_keeps_cache reversed_interaction
              (snd (script scenario_interaction session_start)) eq_refl)
    as (_ & Hv & Hrows).
  split; [exact Hv|exact Hrows].
Defined.

(** X5: a rerun in which the button is pressed replaces both maps in full:
    whatever was cached before, the keys of both maps are afterwards exactly
    the tickers selected now, each once, in the same order in both maps. *)
Theorem rerun_with_fetch_replaces_cache (i : Interaction) (w : World) :
  button i = true ->
  exists data dividends,
    fund_data (snd (script i w)) = Some data /\
    fund_dividends (snd (script i w)) = Some dividends /\
    keys data = keys dividends /\
    List.NoDup (keys data) /\
    (forall t, In t (keys data) <-> In t (selected_tickers i)).
Proof.
  intros Hb. destruct (script_frame i w) as (Hd & Hv & _).
  rewrite Hd, Hv. clear Hd Hv.
  unfold script_head, fetch_trigger, fetch_yieldmax_data. rewrite Hb.
  unfold_M. unfold clear_page, render, init_session_state, set_cache.
  match goal with |- context [fetch_loop ?h ?n ?t ?d ?v ?w0] =>
    destruct (fetch_loop_keys h t n d v w0 eq_refl)
      as (data & dividends & w' & -> & Hk & Hin & Hnd)
  end.
  exists data, dividends. simpl.
  split; [reflexivity|]. split; [reflexivity|]. split; [exact Hk|].
  rewrite Hk. split; [apply Hnd; constructor|].
  intros t. rewrite Hin. simpl. tauto.
Qed.

(** The scenario's first rerun. *)
Lemma rerun_with_fetch_replaces_cache_scenario :
  exists data dividends,
    fund_data (snd (script scenario_interaction session_start)) = Some data /\
    fund_dividends (snd (script scenario_interaction session_start))
    = Some dividends /\
    keys data = keys dividends /\
    (In "TSLY" (keys data) /\ ~ In "NVDY" (keys data)).
Proof.
  destruct (rerun_with_fetch_replaces_cache scenario_interaction session_start
              eq_refl) as (data & dividends & Hd & Hv & Hk & _ & Hin).
  exists data, dividends. split; [exact Hd|]. split; [exact Hv|].
  split; [exact Hk|]. split.
  - apply Hin. simpl. tauto.
  - intros H%Hin. simpl in H. intuition discriminate.
Defined.

(** ** The branch of lines 123-124 *)

Lemma tag_all_refs (items : list (string * nat)) :
  forall (w w' : World) (refs : list nat),
    tag_all items w = (Ok refs, w') -> refs = map snd items.
Proof.
  induction items as [|[ticker l] rest IH]; intros w w' refs; simpl.
  - now intros [= <- _].
  - unfold_M. unfold setitem_Ticker.
    destruct (heap w !! l) as [f|]; [|discriminate].
    match goal with |- context [tag_all rest ?w1] =>
      destruct (tag_all rest w1) as [[refs'|e] w2] eqn:Hrest
    end; [|discriminate].
    intros [= <- _]. f_equal. now apply (IH _ _ _ Hrest).
Qed.

Lemma dividend_table_page (cache : dict nat) (start_date end_date : Z) (w : World) :
  exists shown,
    page (snd (dividend_table cache start_date end_date w))
    = page w ++ st_subheader "Dividends Paid for All Selected Funds" :: shown /\
    (shown = [] \/ exists pivoted, shown = [st_dataframe pivoted]).
Proof.
  unfold dividend_table. unfold_M. unfold render.
  match goal with |- context [tag_all cache ?w0] =>
    destruct (tag_all_frame cache w0) as (_ & _ & Hp & _);
    destruct (tag_all cache w0) as [[refs|e] w1]
  end; simpl in Hp.
  2:{ exists []. simpl. rewrite Hp. auto. }
  destruct refs as [|l refs']; [exists []; simpl; rewrite Hp; auto|].
  pose proof (deref_all_world (l :: refs') w1) as Hw.
  destruct (deref_all (l :: refs') w1) as [[frames|e] w2]; simpl in Hw; subst w2.
  2:{ exists []. simpl. rewrite Hp. auto. }
  destruct (pivoted_dividends frames start_date end_date) as [pivoted|e]; simpl.
  - exists [st_dataframe pivoted]. rewrite Hp, <- app_assoc. eauto.
  - exists []. rewrite Hp. auto.
Qed.

Lemma dividend_table_not_None (cache : dict nat) (start_date end_date : Z)
    (w : World) :
  truthy cache = true ->
  fst (dividend_table cache start_date end_date w) <> Ok None.
Proof.
  intros Ht. unfold dividend_table. unfold_M. unfold render.
  match goal with |- context [tag_all cache ?w0] =>
    destruct (tag_all cache w0) as [[refs|e] w1] eqn:Htag
  end; [|discriminate].
  apply tag_all_refs in Htag. subst refs.
  destruct cache as [|[ticker l] cache']; [discriminate|]. cbn [map snd].
  destruct (deref_all (l :: map snd cache') w1) as [[frames|e] w2];
    [|discriminate].
  destruct (pivoted_dividends frames start_date end_date); discriminate.
Qed.

Lemma dividends_section_no_notice (start_date end_date : Z) (w : World) :
  ~ In no_data_notice (page w) ->
  ~ In no_data_notice (page (snd (dividends_section start_date end_date w))).
Proof.
  intros Hw. unfold dividends_section, get_fund_dividends. unfold_M.
  destruct (fund_dividends w) as [cache|]; [|exact Hw].
  destruct (truthy cache) eqn:Ht.
  2:{ unfold render; simpl. rewrite List.in_app_iff. simpl.
      unfold no_data_notice. intuition discriminate. }
  destruct (dividend_table_page cache start_date end_date w)
    as (shown & Hpage & Hshown).
  pose proof (dividend_table_not_None cache start_date end_date w Ht) as Hsome.
  destruct (dividend_table cache start_date end_date w) as [[[pivoted|]|e] w1];
    simpl in Hpage, Hsome; [|congruence|].
  - rewrite dividend_chart_world. simpl. rewrite Hpage, !List.in_app_iff. simpl.
    unfold no_data_notice.
    destruct Hshown as [->|[p ->]]; simpl; intuition discriminate.
  - simpl. rewrite Hpage, List.in_app_iff. simpl. unfold no_data_notice.
    destruct Hshown as [->|[p ->]]; simpl; intuition discriminate.
Qed.

Lemma script_head_page (i : Interaction) (w : World) :
  page (snd (script_head i w))
  = [st_title "YieldMax Funds Dashboard";
     st_write "This application fetches data for all YieldMax funds from inception, plots their value since inception, and displays a table of all dividends paid.";
     st_sidebar_title "Select YieldMax Funds";
     st_sidebar_write "Choose which YieldMax funds to display in the analysis."]
    ++ (if button i then [st_write "Fetching data... This may take a moment."]
        else []).
Proof.
  unfold script_head, fetch_trigger, fetch_yieldmax_data.
  destruct (button i); [|reflexivity].
  unfold_M. unfold clear_page, render, init_session_state, set_cache.
  match goal with |- context [fetch_loop ?h ?n ?t ?d ?v ?w0] =>
    destruct (fetch_loop_spec h t n d v w0) as (data & dividends & new & -> & _)
  end.
  reflexivity.
Qed.

(** X6: the notice "No dividend data available for the selected funds." is
    never shown, in no rerun from no world: the list tested on line 93 has
    one entry per key of the dict tested on line 86. *)
Theorem no_data_notice_never_shown (i : Interaction) (w : World) :
  ~ In no_data_notice (page (snd (script i w))).
Proof.
  rewrite (script_unfold i w _ (script_head_Ok i w)).
  assert (Hhead : ~ In no_data_notice (page (snd (script_head i w)))).
  { rewrite script_head_page. unfold no_data_notice.
    destruct (button i); simpl; intuition discriminate. }
  set (wa := snd (script_head i w)) in *.
  destruct (fst (resolve_date_range (today i) wa)) as [bounds|e]; [|exact Hhead].
  pose proof (date_filter_world i bounds wa) as Hwc.
  assert (Hc : forall wc, wc = snd (date_filter i bounds wa) ->
                          ~ In no_data_notice (page wc)).
  { intros wc ->. rewrite Hwc. simpl. rewrite List.in_app_iff. simpl.
    unfold no_data_notice in *. intuition discriminate. }
  destruct (date_filter i bounds wa) as [[range|e] wc]; simpl in Hwc;
    specialize (Hc wc eq_refl); [|exact Hc].
  pose proof (price_chart_world wc) as Hwd.
  assert (Hd : forall wd, wd = snd (price_chart wc) ->
                          ~ In no_data_notice (page wd)).
  { intros wd ->. rewrite Hwd. simpl. rewrite List.in_app_iff.
    unfold no_data_notice in *.
    destruct (fund_data wc) as [[|entry data]|]; simpl; intuition discriminate. }
  destruct (price_chart wc) as [[[]|e] wd]; specialize (Hd wd eq_refl);
    [|exact Hd].
  pose proof (dividends_section_no_notice (fst range) (snd range) wd Hd) as He.
  destruct (dividends_section (fst range) (snd range) wd) as [[[]|e] we];
    exact He.
Qed.

(** ** The date filter (line 96) *)

Lemma in_range_spec (start_date end_date : Z) (r : LongRow) :
  in_range start_date end_date r = true <->
  start_date * ns_per_day <= wall (Date r) <= end_date * ns_per_day.
Proof.
  unfold in_range, ts_leb, to_datetime_date, naive; simpl.
  rewrite andb_true_iff, !Z.leb_le. tauto.
Qed.

Lemma midnight_of_last_day (x : Z) (end_date : Z) :
  x <= end_date * ns_per_day -> x / ns_per_day = end_date ->
  x = end_date * ns_per_day.
Proof.
  intros Hle Hday. assert (Hpos : 0 < ns_per_day) by (unfold ns_per_day; lia).
  pose proof (Z.mul_div_le x ns_per_day Hpos) as H. rewrite Hday in H. lia.
Qed.

(** X7: every date column of the table shown is timezone-naive and lies
    between midnight of the start day and midnight of the end day, both
    included; in particular a dividend dated on the end day stays only if
    its time is exactly midnight. *)
Theorem table_columns_within_range (frames : list DivFrame)
    (start_date end_date : Z) (final : Pivoted) :
  pivoted_dividends frames start_date end_date = Ok final ->
  forall d, In d (column_labels final) ->
    tz d = None /\
    start_date * ns_per_day <= wall d <= end_date * ns_per_day /\
    start_date <= date d <= end_date /\
    (date d = end_date -> d = to_datetime_date end_date).
Proof.
  intros (combined & localized & pivoted & Hc & Hl & Hp & ->)%pivoted_dividends_Ok
         d Hd.
  apply (drop_columns_labels _ _ _ Hp) in Hd as [Hd _].
  apply (pivot_column_labels _ _ _ Hp) in Hd.
  apply List.in_map_iff in Hd as [r [<- Hr]].
  apply List.filter_In in Hr as [Hr Hin].
  apply in_range_spec in Hin.
  apply localize_Date_Ok in Hl as [_ ->].
  apply List.in_map_iff in Hr as [r0 [<- Hr0]]. simpl in *.
  assert (Hpos : 0 < ns_per_day) by (unfold ns_per_day; lia).
  split; [reflexivity|]. split; [exact Hin|]. unfold date. simpl.
  split.
  - split.
    + apply Z.div_le_lower_bound; lia.
    + apply Z.div_le_upper_bound; [lia|]. nia.
  - intros Hday. unfold to_datetime_date, naive, tz_localize_None. f_equal.
    apply midnight_of_last_day; [lia|exact Hday].
Qed.

(** The scenario over its full range: the one column shown is a day of that
    range. *)
Lemma table_columns_within_range_scenario :
  day_2023_01_01 <= date (to_datetime_date day_2023_01_01) <= day_2023_02_01.
Proof.
  apply (table_columns_within_range [TSLY_frame; YMAX_frame]
           day_2023_01_01 day_2023_02_01 scenario_table).
  - vm_compute. reflexivity.
  - vm_compute. left. reflexivity.
Defined.

Lemma filter_range_reversed (start_date end_date : Z) (rows : list LongRow) :
  end_date < start_date -> filter_range start_date end_date rows = [].
Proof.
  intros Hlt. unfold filter_range.
  induction rows as [|r rest IH]; simpl; [reflexivity|].
  destruct (in_range start_date end_date r) eqn:Hr; [|exact IH].
  apply in_range_spec in Hr. unfold ns_per_day in Hr. lia.
Qed.

(** X8: a range whose end day lies before its start day is not rejected: the
    filter keeps no row, [pivot] of nothing is the table without rows and
    columns, and that empty table is what is shown. *)
Theorem reversed_range_shows_empty_table (frames : list DivFrame)
    (start_date end_date : Z) (combined localized : list LongRow) :
  concat frames = Ok combined ->
  localize_Date combined = Ok localized ->
  end_date < start_date ->
  pivoted_dividends frames start_date end_date = Ok empty_table /\
  traces (fig_dividends empty_table) = [].
Proof.
  intros Hc Hl Hlt. split; [|reflexivity].
  unfold pivoted_dividends, mbind, Result_bind, mret, Result_ret.
  rewrite Hc, Hl, (filter_range_reversed _ _ _ Hlt). reflexivity.
Qed.

(** The scenario with the range of the reversed widgets. *)
Lemma reversed_range_shows_empty_table_scenario :
  pivoted_dividends [TSLY_frame; YMAX_frame] day_2023_02_01 day_2023_01_01
  = Ok empty_table.
Proof.
  apply (reversed_range_shows_empty_table [TSLY_frame; YMAX_frame]
           day_2023_02_01 day_2023_01_01
           (flat_map frame_rows [TSLY_frame; YMAX_frame])
           (flat_map frame_rows [TSLY_frame; YMAX_frame])).
  - reflexivity.
  - vm_compute. reflexivity.
  - vm_compute. reflexivity.
Defined.

(** ** What the pivot holds (line 97) *)

Lemma NoDup_map_In_inj {A B : Type} (f : A -> B) (l : list A) (x y : A) :
  List.NoDup (map f l) -> In x l -> In y l -> f x = f y -> x = y.
Proof.
  induction l as [|a rest IH]; simpl; [intros _ []|].
  intros Hnd. inversion Hnd as [|? ? Ha Hrest]; subst.
  intros [<-|Hx] [<-|Hy] Heq; auto.
  - exfalso. apply Ha. rewrite Heq. now apply List.in_map.
  - exfalso. apply Ha. rewrite <- Heq. now apply List.in_map.
Qed.

Lemma pivot_Ok_NoDup (rows : list LongRow) (p : Pivoted) :
  pivot rows = Ok p -> List.NoDup (map (fun r => (Ticker r, Date r)) rows).
Proof.
  unfold pivot. destruct (decide _) as [Hnd|]; [|discriminate].
  intros _. now apply NoDup_ListNoDup.
Qed.

Lemma cell_of_row (rows : list LongRow) (r : LongRow) :
  List.NoDup (map (fun r => (Ticker r, Date r)) rows) -> In r rows ->
  cell rows (Ticker r) (Date r) = Dividends r.
Proof.
  intros Hnd Hr. unfold cell.
  destruct (List.find _ rows) as [r'|] eqn:Hfind.
  - apply List.find_some in Hfind as [Hr' Hkey].
    apply bool_decide_eq_true in Hkey as [Ht Hd].
    now rewrite (NoDup_map_In_inj _ rows r' r Hnd Hr' Hr) by congruence.
  - apply (List.find_none _ _ Hfind) in Hr.
    apply bool_decide_eq_false in Hr. tauto.
Qed.

Lemma cell_cases (rows : list LongRow) (t : option string) (d : Timestamp) :
  (exists r, In r rows /\ Ticker r = t /\ Date r = d /\ cell rows t d = Dividends r) \/
  (cell rows t d = NaN /\ forall r, In r rows -> ~ (Ticker r = t /\ Date r = d)).
Proof.
  unfold cell. destruct (List.find _ rows) as [r'|] eqn:Hfind.
  - left. apply List.find_some in Hfind as [Hr' Hkey].
    apply bool_decide_eq_true in Hkey as [Ht Hd]. exists r'. auto.
  - right. split; [reflexivity|]. intros r Hr.
    apply (List.find_none _ _ Hfind) in Hr. now apply bool_decide_eq_false in Hr.
Qed.

(** The row of a ticker of the pivot, read through [loc]. *)
Lemma loc_pivot (rows : list LongRow) (p : Pivoted) (t : option string) :
  pivot rows = Ok p -> In t (index p) ->
  loc p t = map (fun d => (d, cell rows t d)) (column_labels p).
Proof.
  intros Hp Ht. destruct (pivot_Ok _ _ Hp) as [_ Hcols].
  unfold loc, get_loc, column_labels.
  destruct (list_find_elem_of (fun t' => t' = t) (index p) t) as [[i t'] Hfind];
    [now apply list_elem_of_In|reflexivity|].
  rewrite Hfind. simpl.
  apply list_find_Some in Hfind as (Hi & -> & _).
  rewrite Hcols, !List.map_map. simpl.
  apply List.map_ext. intros d.
  now rewrite list_lookup_fmap, Hi.
Qed.

(** X9: the pivot loses and invents nothing: the amount of every row it is
    given is found under the row's ticker and date, and every cell it holds
    is either the amount of the one row with that ticker and date or [NaN]
    where there is no such row. *)
Theorem pivot_holds_the_rows (rows : list LongRow) (p : Pivoted) :
  pivot rows = Ok p ->
  (forall r, In r rows ->
             In (Ticker r) (index p) /\
             In (Date r, Dividends r) (loc p (Ticker r))) /\
  (forall t d v, In t (index p) -> In (d, v) (loc p t) ->
     (exists r, In r rows /\ Ticker r = t /\ Date r = d /\ Dividends r = v) \/
     (v = NaN /\ forall r, In r rows -> ~ (Ticker r = t /\ Date r = d))).
Proof.
  intros Hp. split.
  - intros r Hr.
    assert (Ht : In (Ticker r) (index p)).
    { apply (pivot_index _ _ _ Hp). now apply List.in_map. }
    split; [exact Ht|].
    rewrite (loc_pivot _ _ _ Hp Ht). apply List.in_map_iff.
    exists (Date r). split.
    + now rewrite (cell_of_row rows r (pivot_Ok_NoDup _ _ Hp) Hr).
    + apply (pivot_column_labels _ _ _ Hp). now apply List.in_map.
  - intros t d v Ht Hin. rewrite (loc_pivot _ _ _ Hp Ht) in Hin.
    apply List.in_map_iff in Hin as [d' [[= -> <-] _]].
    destruct (cell_cases rows t d) as [(r & Hr & Hrt & Hrd & Hv)|[Hv Hnone]].
    + left. exists r. auto.
    + right. auto.
Qed.

(** The scenario's rows over the full range: TSLY's 0.5 sits under TSLY and
    2023-01-01. *)
Lemma pivot_holds_the_rows_scenario :
  exists p,
    pivot (flat_map frame_rows [TSLY_frame; YMAX_frame]) = Ok p /\
    In (to_datetime_date day_2023_01_01, f0_5) (loc p (Some "TSLY")).
Proof.
  eexists. split; [vm_compute; reflexivity|].
  refine (proj2 (proj1 (pivot_holds_the_rows
                          (flat_map frame_rows [TSLY_frame; YMAX_frame]) _ _)
                       {| Ticker := Some "TSLY";
                          Date := to_datetime_date day_2023_01_01;
                          Dividends := f0_5 |} _)).
  - vm_compute. reflexivity.
  - vm_compute. left. reflexivity.
Defined.

(** ** Which dividends are charted (lines 99-113) *)

Lemma combine_fst_snd {A B : Type} (l : list (A * B)) :
  combine (map fst l) (map snd l) = l.
Proof. induction l as [|[a b] l IH]; simpl; [reflexivity|]. now rewrite IH. Qed.

Lemma bar_points_bar_trace (p : Pivoted) (ticker : option string) :
  bar_points (bar_trace p ticker)
  = List.filter (fun e => gt0 (snd e)) (loc p ticker).
Proof. unfold bar_trace; simpl. apply combine_fst_snd. Qed.

Lemma gt0_not_eq0_isna (x : float) : gt0 x = true -> eq0 x = false /\ isna x = false.
Proof.
  unfold gt0, eq0, SFltb, SFeqb.
  destruct x as [s|s| |s m e]; simpl; try discriminate; destruct s; simpl;
    intros H; try discriminate; split; reflexivity.
Qed.

Lemma loc_drop_columns_pivot (rows : list LongRow) (p : Pivoted) (t : option string) :
  pivot rows = Ok p -> In t (index p) ->
  loc (drop_columns p) t
  = map (fun d => (d, cell rows t d)) (column_labels (drop_columns p)).
Proof.
  intros Hp Ht. destruct (pivot_Ok _ _ Hp) as [_ Hcols].
  unfold loc, get_loc, column_labels. simpl index.
  destruct (list_find_elem_of (fun t' => t' = t) (index p) t) as [[i t'] Hfind];
    [now apply list_elem_of_In|reflexivity|].
  rewrite Hfind. simpl.
  apply list_find_Some in Hfind as (Hi & -> & _).
  rewrite List.map_map. apply List.map_ext_in.
  intros [d vs] [Hin _]%List.filter_In. simpl.
  rewrite Hcols in Hin. apply List.in_map_iff in Hin as [d' [[= -> <-] _]].
  now rewrite list_lookup_fmap, Hi.
Qed.

(** X10: a positive amount of a row given to the pivot is a bar of its
    ticker's trace on its date, unless every visible ticker's amount on that
    date is exactly 1: then the column is dropped and no trace has a bar on
    that date. *)
Theorem positive_dividends_are_charted (rows : list LongRow) (p : Pivoted)
    (r : LongRow) :
  pivot rows = Ok p -> In r rows -> gt0 (Dividends r) = true ->
  (~ every_cell eq1 rows p (Date r) ->
   exists tr,
     In tr (traces (fig_dividends (drop_columns p))) /\
     trace_name tr = Ticker r /\
     In (Date r, Dividends r) (bar_points tr)) /\
  (every_cell eq1 rows p (Date r) ->
   forall tr, In tr (traces (fig_dividends (drop_columns p))) ->
              ~ In (Date r) (map fst (bar_points tr))).
Proof.
  intros Hp Hr Hpos.
  assert (Ht : In (Ticker r) (index p)).
  { apply (pivot_index _ _ _ Hp). now apply List.in_map. }
  assert (Hcell : cell rows (Ticker r) (Date r) = Dividends r)
    by (apply cell_of_row; [now apply (pivot_Ok_NoDup _ p)|exact Hr]).
  destruct (gt0_not_eq0_isna _ Hpos) as [H0 Hna].
  split.
  - intros Hones. exists (bar_trace (drop_columns p) (Ticker r)).
    split; [simpl; now apply List.in_map|]. split; [reflexivity|].
    rewrite bar_points_bar_trace. apply List.filter_In. split; [|exact Hpos].
    rewrite (loc_drop_columns_pivot _ _ _ Hp Ht). apply List.in_map_iff.
    exists (Date r). split; [now rewrite Hcell|].
    apply (drop_columns_labels _ _ _ Hp). split.
    + apply (pivot_column_labels _ _ _ Hp). now apply List.in_map.
    + intros [H|[H|H]]; [| |]; try (specialize (H _ Ht); congruence). tauto.
  - intros Hones tr Htr Hbar. simpl in Htr.
    apply List.in_map_iff in Htr as [t [<- Hti]].
    rewrite bar_points_bar_trace in Hbar.
    apply List.in_map_iff in Hbar as [[d v] [Hd Hin]]. simpl in Hd; subst d.
    apply List.filter_In in Hin as [Hin _].
    rewrite (loc_drop_columns_pivot _ _ _ Hp Hti) in Hin.
    apply List.in_map_iff in Hin as [d' [[= -> _] Hlab]].
    apply (drop_columns_labels _ _ _ Hp) in Hlab as [_ Hkeep]. tauto.
Qed.

(** TSLY's 0.5 of the scenario is charted; where both funds pay exactly 1
    nothing is. *)
Lemma positive_dividends_are_charted_scenario :
  (exists p tr,
      pivot scenario_rows = Ok p /\
      In tr (traces (fig_dividends (drop_columns p))) /\
      trace_name tr = Some "TSLY" /\
      In (to_datetime_date day_2023_01_01, f0_5) (bar_points tr)) /\
  (exists p,
      pivot ones_rows = Ok p /\
      forall tr, In tr (traces (fig_dividends (drop_columns p))) ->
                 ~ In (to_datetime_date day_2023_01_01) (map fst (bar_points tr))).
Proof.
  split.
  - eexists.
    assert (Hp : pivot scenario_rows = Ok _) by (vm_compute; reflexivity).
    destruct (proj1 (positive_dividends_are_charted scenario_rows _
                       {| Ticker := Some "TSLY";
                          Date := to_datetime_date day_2023_01_01;
                          Dividends := f0_5 |}
                       Hp ltac:(vm_compute; tauto) ltac:(reflexivity)))
      as (tr & Htr & Hname & Hbar).
    { intros H. specialize (H (Some "TSLY") (or_introl eq_refl)).
      vm_compute in H. discriminate H. }
    exists tr. auto.
  - eexists.
    assert (Hp : pivot ones_rows = Ok _) by (vm_compute; reflexivity).
    split; [exact Hp|].
    apply (proj2 (positive_dividends_are_charted ones_rows _
                    {| Ticker := Some "TSLY";
                       Date := to_datetime_date day_2023_01_01;
                       Dividends := f1 |}
                    Hp ltac:(vm_compute; tauto) ltac:(reflexivity))).
    intros t [<-|[<-|[]]]; vm_compute; reflexivity.
Defined.

(** ** Building the table again (line 90, second time) *)

Lemma set_Ticker_idempotent (ticker : string) (f : DivFrame) :
  set_Ticker ticker (set_Ticker ticker f) = set_Ticker ticker f.
Proof. reflexivity. Qed.

Lemma tag_all_heap_length (items : list (string * nat)) (w : World) :
  length (heap (snd (tag_all items w))) = length (heap w).
Proof.
  destruct (tag_all_frame items w) as (_ & _ & _ & Hrows & _).
  apply (f_equal (@length _)) in Hrows. now rewrite !length_map in Hrows.
Qed.

(** X11: on a cache of distinct live objects, the first build of the table
    is the only one that changes the cached tables: building it again, for
    any range, leaves every object exactly as the first build left it. *)
Theorem dividend_table_again_changes_nothing (w : World) (cache : dict nat)
    (start_date end_date start_date' end_date' : Z) :
  List.NoDup (values cache) ->
  (forall l, In l (values cache) -> is_Some (heap w !! l)) ->
  heap (snd (dividend_table cache start_date' end_date'
                            (snd (dividend_table cache start_date end_date w))))
  = heap (snd (dividend_table cache start_date end_date w)).
Proof.
  intros Hnd Hlive.
  destruct (dividend_table_world cache start_date end_date w)
    as (_ & _ & Hh1 & _).
  set (w1 := snd (dividend_table cache start_date end_date w)) in *.
  destruct (dividend_table_world cache start_date' end_date' w1)
    as (_ & _ & Hh2 & _).
  rewrite Hh2. clear Hh2.
  match type of Hh1 with _ = heap (snd (tag_all cache ?w0)) =>
    destruct (tag_all_Ok cache w0 Hnd Hlive) as (wt & Hrun & Htag);
    rewrite Hrun in Hh1; simpl in Hh1
  end.
  match goal with |- heap (snd (tag_all cache ?w0')) = _ =>
    set (w1' := w0')
  end.
  assert (Hlive1 : forall l, In l (values cache) -> is_Some (heap w1' !! l)).
  { intros l Hl. simpl. rewrite Hh1.
    destruct (Hlive l Hl) as [f Hf].
    apply List.in_map_iff in Hl as [[t l'] [Heq Hin]]. simpl in Heq; subst l'.
    exists (set_Ticker t f). now apply (Htag t l f). }
  destruct (tag_all_Ok cache w1' Hnd Hlive1) as (wt' & Hrun' & Htag').
  destruct (tag_all_frame cache w1') as (_ & _ & _ & _ & Hother).
  pose proof (tag_all_heap_length cache w1') as Hlen.
  rewrite Hrun' in Hother, Hlen |- *. simpl in Hother, Hlen |- *.
  apply list_eq. intros l.
  destruct (List.in_dec Nat.eq_dec l (values cache)) as [Hl|Hl];
    [|now apply Hother].
  destruct (Hlive l Hl) as [f Hf].
  apply List.in_map_iff in Hl as [[t l'] [Heq Hin]]. simpl in Heq; subst l'.
  assert (Hf1 : heap w1 !! l = Some (set_Ticker t f))
    by (rewrite Hh1; now apply (Htag t l f)).
  rewrite Hf1. now apply (Htag' t l (set_Ticker t f)).
Qed.

(** After the scenario's fetch: a second build with another range. *)
Lemma dividend_table_again_changes_nothing_scenario :
  heap (snd (dividend_table scenario_cache day_2023_02_01 day_2023_01_01
               (snd (dividend_table scenario_cache day_2023_01_01 day_2023_02_01
                                    fetched_world))))
  = heap (snd (dividend_table scenario_cache day_2023_01_01 day_2023_02_01
                              fetched_world)).
Proof.
  apply (dividend_table_again_changes_nothing fetched_world scenario_cache).
  - apply NoDup_ListNoDup, (bool_decide_unpack _). vm_compute. exact I.
  - intros l [<-|[<-|[]]]; eexists; reflexivity.
Defined.

(** ** The exceptions of a rerun *)

Lemma frame_rows_naive (frames : list DivFrame) :
  Forall (fun f => Forall (fun r => tz (r_Date r) = None) (df_rows f)) frames ->
  Forall (fun r => tz (Date r) = None) (flat_map frame_rows frames).
Proof.
  intros Hnaive. apply List.Forall_forall. intros r Hr.
  assert (Hd : In (Date r) (map Date (flat_map frame_rows frames)))
    by (now apply List.in_map).
  rewrite flat_map_frame_rows_Date in Hd.
  apply List.in_flat_map in Hd as (f & Hf & Hd).
  apply List.in_map_iff in Hd as (row & Hrow & Hin).
  rewrite List.Forall_forall in Hnaive. specialize (Hnaive f Hf).
  rewrite List.Forall_forall in Hnaive. rewrite <- Hrow. now apply Hnaive.
Qed.

Lemma resolve_date_range_well_formed (today : Z) (w : World) (cache : dict nat) :
  well_formed_cache w -> fund_dividends w = Some cache ->
  exists bounds, fst (resolve_date_range today w) = Ok bounds.
Proof.
  intros Hwf Hc. destruct (Hwf cache Hc) as (_ & _ & Hlive).
  unfold resolve_date_range, get_fund_dividends. unfold_M. rewrite Hc.
  destruct cache as [|entry cache']; [simpl; eauto|].
  change (truthy (entry :: cache')) with true. cbv beta iota.
  destruct (deref_all_Ok _ (values (entry :: cache')) w Hlive)
    as (frames & -> & Hrefs & Hnaive).
  destruct frames as [|f fs]; [inversion Hrefs|].
  assert (Hcat : concat (f :: fs) = Ok (flat_map frame_rows (f :: fs)))
    by reflexivity.
  rewrite Hcat, (localize_Date_naive _ (frame_rows_naive _ Hnaive)).
  simpl. eauto.
Qed.

Lemma script_head_entries (i : Interaction) (w : World) :
  exists data cache,
    fund_data (snd (script_head i w)) = Some data /\
    fund_dividends (snd (script_head i w)) = Some cache.
Proof.
  unfold script_head, fetch_trigger, fetch_yieldmax_data.
  destruct (button i); [|simpl; eauto].
  unfold_M. unfold clear_page, render, init_session_state, set_cache.
  match goal with |- context [fetch_loop ?h ?n ?t ?d ?v ?w0] =>
    destruct (fetch_loop_spec h t n d v w0) as (data & dividends & new & -> & _)
  end.
  simpl. eauto.
Qed.

Lemma price_chart_Ok (w : World) (data : dict HistFrame) :
  fund_data w = Some data -> fst (price_chart w) = Ok ().
Proof.
  intros Hd. unfold price_chart, get_fund_data. unfold_M. unfold render.
  rewrite Hd. destruct (truthy data); reflexivity.
Qed.

Lemma dividends_section_Raise (start_date end_date : Z) (w : World)
    (cache : dict nat) (e : Exception) :
  well_formed_cache w -> fund_dividends w = Some cache ->
  fst (dividends_section start_date end_date w) = Raise e ->
  e = ValueError_duplicate_entries.
Proof.
  intros Hwf Hc. destruct (Hwf cache Hc) as (_ & Hv & Hlive).
  destruct (deref_all_Ok _ (values cache) w Hlive) as (frames & _ & Hrefs & Hnaive).
  unfold dividends_section, get_fund_dividends. unfold_M. rewrite Hc.
  destruct (truthy cache) eqn:Ht; [|discriminate].
  unfold dividend_table. unfold_M. unfold render.
  match goal with |- context [tag_all cache ?w0] =>
    destruct (tag_all_tagged cache frames w0 Hrefs Hv) as (w1 & -> & Hderef)
  end.
  destruct cache as [|[ticker l] cache']; [discriminate|].
  cbn [values map snd] in *. rewrite Hderef.
  unfold pivoted_dividends, mbind, Result_bind, mret, Result_ret.
  assert (Hcat : concat (tagged ((ticker, l) :: cache') frames)
                 = Ok (flat_map frame_rows (tagged ((ticker, l) :: cache') frames))).
  { inversion Hrefs; subst. reflexivity. }
  rewrite Hcat, (localize_Date_naive _ (tagged_rows_naive _ _ Hnaive)).
  unfold pivot. destruct (decide _); simpl.
  - unfold dividend_chart. unfold_M. unfold render. discriminate.
  - now intros [= <-].
Qed.

(** X12: from every world of a session, a rerun in which the button is not
    pressed (no call to the service) either completes, or stops at a date
    widget (a [ValueError] on [NaT] bounds, a [StreamlitAPIException] on a
    default outside the bounds), or stops at [pivot] with its
    duplicate-entry error; it never stops for a missing session entry, an
    empty concatenation or mixed time zones. *)
Theorem rerun_exceptions (i : Interaction) (w : World) (e : Exception) :
  reachable w ->
  button i = false ->
  fst (script i w) = Raise e ->
  e = StreamlitAPIException \/ e = ValueError_NaT \/
  e = ValueError_duplicate_entries.
Proof.
  intros Hreach _.
  pose proof (script_head_well_formed i w (reachable_well_formed w Hreach)) as Hwf.
  destruct (script_head_entries i w) as (data & cache & Hdata & Hcache).
  rewrite (script_unfold i w _ (script_head_Ok i w)).
  set (wa := snd (script_head i w)) in *.
  destruct (resolve_date_range_well_formed (today i) wa cache Hwf Hcache)
    as [bounds ->].
  pose proof (date_filter_world i bounds wa) as Hwc.
  destruct (date_filter i bounds wa) as [[range|ex] wc] eqn:Hf; simpl in Hwc.
  2:{ apply date_filter_Raise in Hf. simpl. intros [= <-]. tauto. }
  assert (Hpc : fst (price_chart wc) = Ok ())
    by (apply (price_chart_Ok wc data); now subst wc).
  pose proof (price_chart_world wc) as Hwd.
  destruct (price_chart wc) as [[[]|ex] wd]; simpl in Hpc, Hwd; [|discriminate].
  assert (Hwfd : well_formed_cache wd).
  { eapply well_formed_cache_ext; [| |exact Hwf]; subst wd wc; reflexivity. }
  assert (Hcd : fund_dividends wd = Some cache) by (now subst wd wc).
  pose proof (dividends_section_Raise (fst range) (snd range) wd cache) as Hds.
  destruct (dividends_section (fst range) (snd range) wd) as [[[]|ex] we];
    simpl in *; [discriminate|].
  intros [= <-]. right. right. now apply Hds.
Qed.

(** After the fetch of a fund for which the service reported one day twice,
    a rerun without the button stops at [pivot]. *)
Lemma rerun_exceptions_duplicated :
  fst (script duplicated_rerun (snd (script duplicated_interaction session_start)))
  = Raise ValueError_duplicate_entries /\
  (ValueError_duplicate_entries = StreamlitAPIException \/
   ValueError_duplicate_entries = ValueError_NaT \/
   ValueError_duplicate_entries = ValueError_duplicate_entries).
Proof.
  assert (H : fst (script duplicated_rerun
                     (snd (script duplicated_interaction session_start)))
              = Raise ValueError_duplicate_entries) by (vm_compute; reflexivity).
  split; [exact H|].
  exact (rerun_exceptions duplicated_rerun
           (snd (script duplicated_interaction session_start)) _
           (reachable_rerun _ _ reachable_start) eq_refl H).
Defined.

(** ** The untouched date widgets (lines 54-67 with 96) *)

Lemma resolve_date_range_cached (today : Z) (w : World) (cache : dict nat)
    (frames : list DivFrame) :
  fund_dividends w = Some cache -> cache <> [] ->
  refers_to w cache frames ->
  uniform_tz (all_dates frames) = true ->
  resolve_date_range today w
  = (Ok (Series_min (cached_dates frames), Series_max (cached_dates frames)), w).
Proof.
  intros Hc Hne Hrefs Htz.
  unfold resolve_date_range, get_fund_dividends. unfold_M. rewrite Hc.
  destruct cache as [|entry cache']; [congruence|].
  change (truthy (entry :: cache')) with true. cbv beta iota.
  rewrite (deref_all_refers_to _ _ _ Hrefs).
  assert (Hfs : exists f fs, frames = f :: fs).
  { unfold refers_to in Hrefs. simpl in Hrefs. inversion Hrefs; eauto. }
  destruct Hfs as (f & fs & ->).
  assert (Hcat : concat (f :: fs) = Ok (flat_map frame_rows (f :: fs)))
    by reflexivity.
  rewrite Hcat. unfold localize_Date.
  rewrite (concat_Dates _ _ Hcat), Htz.
  rewrite List.map_map. simpl Date.
  rewrite <- (List.map_map Date tz_localize_None), (concat_Dates _ _ Hcat).
  reflexivity.
Qed.

Lemma date_le (a b : Timestamp) : wall a <= wall b -> date a <= date b.
Proof.
  intros Hle. unfold date. apply Z.div_le_mono; [|exact Hle].
  unfold ns_per_day. lia.
Qed.

Lemma date_midnight_le (a : Timestamp) : date a * ns_per_day <= wall a.
Proof.
  unfold date. rewrite Z.mul_comm. apply Z.mul_div_le. unfold ns_per_day. lia.
Qed.

(** X13: on a cache with at least one date, the untouched date widgets are
    accepted and give the span from the day of the earliest to the day of
    the latest cached date, which covers the day of every cached date; with
    that range the filter keeps a cached row exactly when it is not later
    than midnight of the last day. *)
Theorem untouched_widgets_give_whole_span (i : Interaction) (w : World)
    (cache : dict nat) (frames : list DivFrame) :
  start_choice i = None -> end_choice i = None ->
  fund_dividends w = Some cache -> cache <> [] ->
  refers_to w cache frames ->
  uniform_tz (all_dates frames) = true ->
  all_dates frames <> [] ->
  exists lo hi,
    fst (resolve_date_range (today i) w) = Ok (Some lo, Some hi) /\
    fst (date_filter i (Some lo, Some hi) w) = Ok (date lo, date hi) /\
    (forall d, In d (cached_dates frames) -> date lo <= date d <= date hi) /\
    (forall r, In (Date r) (cached_dates frames) ->
               in_range (date lo) (date hi) r = true <->
               wall (Date r) <= date hi * ns_per_day).
Proof.
  intros Hs He Hc Hne Hrefs Htz Hdates.
  assert (Hcd : cached_dates frames <> []).
  { unfold cached_dates. destruct (all_dates frames); [congruence|discriminate]. }
  destruct (Series_min_max_nonempty _ Hcd) as (lo & hi & Hmin & Hmax & Hlo & Hhi & Hb).
  exists lo, hi.
  rewrite (resolve_date_range_cached (today i) w cache frames Hc Hne Hrefs Htz).
  rewrite Hmin, Hmax. split; [reflexivity|].
  assert (Hlh : date lo <= date hi) by (apply date_le, (Hb lo Hlo)).
  split.
  { unfold date_filter. unfold_M. unfold render. rewrite Hs, He.
    unfold date_input.
    rewrite !(proj2 (Z.leb_le _ _)) by lia. reflexivity. }
  split.
  { intros d Hd. split; apply date_le; now apply Hb. }
  intros r Hr. rewrite in_range_spec.
  pose proof (date_midnight_le lo). pose proof (proj1 (Hb _ Hr)). lia.
Qed.

(** The scenario's cache: the untouched widgets give 2023-01-01 to
    2023-02-01. *)
Lemma untouched_widgets_give_whole_span_scenario :
  exists lo hi,
    fst (resolve_date_range (today scenario_interaction) scenario_world)
    = Ok (Some lo, Some hi) /\
    fst (date_filter scenario_interaction (Some lo, Some hi) scenario_world)
    = Ok (date lo, date hi).
Proof.
  destruct (untouched_widgets_give_whole_span scenario_interaction scenario_world
              scenario_cache [TSLY_frame; YMAX_frame])
    as (lo & hi & Hr & Hf & _); try reflexivity.
  - discriminate.
  - repeat constructor.
  - discriminate.
  - exists lo, hi. auto.
Defined.

(** ** The two maps of the cache *)

(** X14: in every world a session reaches, the price map and the dividend
    map are either both absent or both present with the same keys in the
    same order. *)
Theorem cache_maps_have_the_same_keys (w : World) :
  reachable w ->
  match fund_data w, fund_dividends w with
  | Some data, Some dividends => keys data = keys dividends
  | None, None => True
  | _, _ => False
  end.
Proof.
  induction 1 as [|w i Hreach IH]; [exact I|].
  destruct (script_frame i w) as (-> & -> & _).
  unfold script_head, fetch_trigger, fetch_yieldmax_data.
  destruct (button i).
  - unfold_M. unfold clear_page, render, init_session_state, set_cache.
    match goal with |- context [fetch_loop ?h ?n ?t ?d ?v ?w0] =>
      destruct (fetch_loop_keys h t n d v w0 eq_refl)
        as (data & dividends & w' & -> & Hk & _)
    end.
    exact Hk.
  - simpl. destruct (fund_data w), (fund_dividends w); simpl; tauto.
Qed.

(** After the scenario's two reruns. *)
Lemma cache_maps_have_the_same_keys_scenario :
  match fund_data (snd (script reversed_interaction
                          (snd (script scenario_interaction session_start)))),
        fund_dividends (snd (script reversed_interaction
                               (snd (script scenario_interaction session_start))))
  with
  | Some data, Some dividends => keys data = keys dividends
  | None, None => True
  | _, _ => False
  end.
Proof.
  apply cache_maps_have_the_same_keys.
  apply reachable_rerun, reachable_rerun, reachable_start.
Defined.

(** ** What a completed rerun shows *)

Lemma dividend_table_Some (cache : dict nat) (start_date end_date : Z)
    (w w' : World) (pivoted : Pivoted) :
  dividend_table cache start_date end_date w = (Ok (Some pivoted), w') ->
  exists frames,
    refers_to w' cache frames /\
    pivoted_dividends frames start_date end_date = Ok pivoted /\
    page w' = page w ++ [st_subheader "Dividends Paid for All Selected Funds";
                         st_dataframe pivoted].
Proof.
  unfold dividend_table. unfold_M. unfold render.
  match goal with |- context [tag_all cache ?w0] =>
    destruct (tag_all_frame cache w0) as (_ & _ & Hp & _);
    destruct (tag_all cache w0) as [[refs|e] w1] eqn:Htag
  end; simpl in Hp; [|discriminate].
  apply tag_all_refs in Htag. subst refs.
  destruct (map snd cache) as [|l refs'] eqn:Hvals; [discriminate|].
  destruct (deref_all (l :: refs') w1) as [[frames|e] w2] eqn:Hderef;
    [|discriminate].
  apply deref_all_inv in Hderef as [-> Hrefs].
  destruct (pivoted_dividends frames start_date end_date) as [p|e] eqn:Hpd;
    [|discriminate].
  simpl. intros [= <- <-]. exists frames.
  split; [unfold refers_to, values; simpl; now rewrite Hvals|].
  split; [exact Hpd|]. simpl. now rewrite Hp, <- app_assoc.
Qed.

Lemma dividends_section_Ok (start_date end_date : Z) (w w' : World)
    (cache : dict nat) :
  fund_dividends w = Some cache ->
  dividends_section start_date end_date w = (Ok (), w') ->
  (cache = [] ->
   page w' = page w ++ [st_write "Click the button above to fetch and display YieldMax fund data."]) /\
  (cache <> [] ->
   exists frames pivoted,
     refers_to w' cache frames /\
     pivoted_dividends frames start_date end_date = Ok pivoted /\
     page w' = page w ++ [st_subheader "Dividends Paid for All Selected Funds";
                          st_dataframe pivoted;
                          st_subheader "Dividends Visualization";
                          st_plotly_chart (fig_dividends pivoted)]).
Proof.
  intros Hc. unfold dividends_section, get_fund_dividends. unfold_M. rewrite Hc.
  destruct cache as [|entry cache'].
  - simpl. unfold render. intros [= <-]. split; [reflexivity|congruence].
  - change (truthy (entry :: cache')) with true. cbv beta iota.
    pose proof (dividend_table_not_None (entry :: cache') start_date end_date w
                  eq_refl) as Hsome.
    destruct (dividend_table (entry :: cache') start_date end_date w)
      as [[[pivoted|]|e] w1] eqn:Htable; simpl in Hsome;
      [|congruence|discriminate].
    rewrite dividend_chart_world. intros [= <-].
    split; [discriminate|]. intros _.
    destruct (dividend_table_Some _ _ _ _ _ _ Htable) as (frames & Hrefs & Hpd & Hp).
    exists frames, pivoted. split; [exact Hrefs|]. split; [exact Hpd|].
    simpl. now rewrite Hp, <- app_assoc.
Qed.

(** X15: a rerun that completes shows, after the head of the page and the
    sidebar title of the date filter: the price section if the price map is
    not empty; then, if the dividend map is empty, only the prompt to press
    the button, and otherwise the table and the bar chart of one and the
    same pivot, computed for the selected range from the cached tables as
    the rerun leaves them. *)
Theorem completed_rerun_page (i : Interaction) (w : World) (range : Z * Z)
    (data : dict HistFrame) (cache : dict nat) :
  fst (script i w) = Ok range ->
  fund_data (snd (script_head i w)) = Some data ->
  fund_dividends (snd (script_head i w)) = Some cache ->
  let base :=
    page (snd (script_head i w)) ++ [st_sidebar_title "Filter Date Range"] ++
    match data with
    | [] => []
    | _ => [st_subheader "Fund Values Since Inception"; st_plotly_chart (fig data)]
    end in
  (cache = [] ->
   page (snd (script i w))
   = base ++ [st_write "Click the button above to fetch and display YieldMax fund data."]) /\
  (cache <> [] ->
   exists frames pivoted,
     refers_to (snd (script i w)) cache frames /\
     pivoted_dividends frames (fst range) (snd range) = Ok pivoted /\
     page (snd (script i w))
     = base ++ [st_subheader "Dividends Paid for All Selected Funds";
                st_dataframe pivoted;
                st_subheader "Dividends Visualization";
                st_plotly_chart (fig_dividends pivoted)]).
Proof.
  rewrite (script_unfold i w _ (script_head_Ok i w)).
  set (wa := snd (script_head i w)).
  intros Hok Hdata Hcache.
  destruct (fst (resolve_date_range (today i) wa)) as [bounds|e]; [|discriminate].
  pose proof (date_filter_world i bounds wa) as Hwc.
  destruct (date_filter i bounds wa) as [[range'|e] wc]; simpl in Hwc;
    [|discriminate].
  pose proof (price_chart_world wc) as Hwd.
  destruct (price_chart wc) as [[[]|e] wd]; simpl in Hwd; [|discriminate].
  assert (Hcd : fund_dividends wd = Some cache) by (now subst wd wc).
  assert (Hpd : page wd
                = page wa ++ [st_sidebar_title "Filter Date Range"] ++
                  match data with
                  | [] => []
                  | _ => [st_subheader "Fund Values Since Inception";
                          st_plotly_chart (fig data)]
                  end).
  { subst wd wc. simpl. rewrite Hdata, <- app_assoc. simpl.
    destruct data; reflexivity. }
  destruct (dividends_section (fst range') (snd range') wd) as [[[]|e] we] eqn:Hds;
    [|discriminate].
  simpl in Hok. injection Hok as <-. simpl snd at 1 2 3.
  destruct (dividends_section_Ok _ _ _ _ _ Hcd Hds) as [Hempty Hfull].
  cbv zeta. rewrite <- Hpd. split; [exact Hempty|exact Hfull].
Qed.

(** The scenario's first rerun ends with the table of the specification and
    its chart. *)
Lemma completed_rerun_page_scenario :
  exists frames pivoted,
    refers_to (snd (script scenario_interaction session_start)) scenario_cache frames /\
    pivoted_dividends frames day_2023_01_01 day_2023_02_01 = Ok pivoted /\
    In (st_dataframe pivoted) (page (snd (script scenario_interaction session_start))) /\
    In (st_plotly_chart (fig_dividends pivoted))
       (page (snd (script scenario_interaction session_start))).
Proof.
  destruct (proj2 (completed_rerun_page scenario_interaction session_start
                     (day_2023_01_01, day_2023_02_01)
                     [("TSLY", TSLY_history); ("YMAX", YMAX_history)]
                     scenario_cache
                     ltac:(vm_compute; reflexivity)
                     ltac:(reflexivity) ltac:(reflexivity))
                  ltac:(discriminate))
    as (frames & pivoted & Hrefs & Hpd & Hpage).
  exists frames, pivoted. split; [exact Hrefs|]. split; [exact Hpd|].
  rewrite Hpage, !List.in_app_iff. simpl. tauto.
Defined.
